(** * phidget-rs: return codes, handle ownership and the callback bridge

    A shallow embedding of the parts of the [phidget] crate that translate
    native return codes ([src/errors.rs]), own native handles and bridge
    boxed Rust closures to the native library ([src/lib.rs],
    [src/phidget.rs], [src/manager.rs], [src/devices/humidity_sensor.rs]).

    A [c_uint] is an [N] below [2^32]; pointers and handles are [N], with
    [0] for null. The native library is an environment that answers each
    native call with a return code; the Rust side runs in a state monad
    whose state records every native call and every allocation and free
    of a boxed closure. *)

From Stdlib Require Import NArith ZArith List String Bool Lia.
Import ListNotations.
Open Scope N_scope.

(** ** [src/errors.rs] *)

Module Errors.

(** [enum ReturnCode], [#[repr(u32)]]. *)
Inductive ReturnCode :=
| Ok | Perm | NoEnt | Timeout | Interrupted | Io | NoMemory | Access
| Fault | Busy | Exist | NotDir | IsDir | Invalid | NFile | MFile | NoSPC
| FBig | ROFS | RO | Unsupported | InvalidArg | Again | NotEmpty
| Duplicate | Unexpected | Eof | ConnRef | BadPassword | NoDev | Pipe
| Resolv | NetUnavail | ConnReset | HostUnreach | WrongDevice | UnknownVal
| NotAttached | InvalidPacket | TooBig | BadVersion | Closed
| NotConfigured | KeepAlive | Failsafe | UnknownValHigh | UnknownValLow
| BadPower | PowerCycle | HallSensor | BadCurrent | BadConnection | Nack.

(** The discriminants of the enum declaration ([rc as u32]). *)
Definition discriminant (r : ReturnCode) : N :=
  match r with
  | Ok => 0 | Perm => 1 | NoEnt => 2 | Timeout => 3 | Interrupted => 4
  | Io => 5 | NoMemory => 6 | Access => 7 | Fault => 8 | Busy => 9
  | Exist => 10 | NotDir => 11 | IsDir => 12 | Invalid => 13 | NFile => 14
  | MFile => 15 | NoSPC => 16 | FBig => 17 | ROFS => 18 | RO => 19
  | Unsupported => 20 | InvalidArg => 21 | Again => 22 | NotEmpty => 26
  | Duplicate => 27 | Unexpected => 28 | Eof => 31 | ConnRef => 35
  | BadPassword => 37 | NoDev => 40 | Pipe => 41 | Resolv => 44
  | NetUnavail => 45 | ConnReset => 46 | HostUnreach => 48
  | WrongDevice => 50 | UnknownVal => 51 | NotAttached => 52
  | InvalidPacket => 53 | TooBig => 54 | BadVersion => 55 | Closed => 56
  | NotConfigured => 57 | KeepAlive => 58 | Failsafe => 59
  | UnknownValHigh => 60 | UnknownValLow => 61 | BadPower => 62
  | PowerCycle => 63 | HallSensor => 64 | BadCurrent => 65
  | BadConnection => 66 | Nack => 67
  end.

(** [impl From<c_uint> for ReturnCode]. *)
Definition from (val : N) : ReturnCode :=
  match val with
  | 0 => Ok | 1 => Perm | 2 => NoEnt | 3 => Timeout | 4 => Interrupted
  | 5 => Io | 6 => NoMemory | 7 => Access | 8 => Fault | 9 => Busy
  | 10 => Exist | 11 => NotDir | 12 => IsDir | 13 => Invalid | 14 => NFile
  | 15 => MFile | 16 => NoSPC | 17 => FBig | 18 => ROFS | 19 => RO
  | 20 => Unsupported | 21 => InvalidArg | 22 => Again | 26 => NotEmpty
  | 27 => Duplicate | 28 => Unexpected | 31 => Eof | 35 => ConnRef
  | 37 => BadPassword | 40 => NoDev | 41 => Pipe | 44 => Resolv
  | 45 => NetUnavail | 46 => ConnReset | 48 => HostUnreach
  | 50 => WrongDevice | 51 => UnknownVal | 52 => NotAttached
  | 53 => InvalidPacket | 54 => TooBig | 55 => BadVersion | 56 => Closed
  | 57 => NotConfigured | 58 => KeepAlive | 59 => Failsafe
  | 60 => UnknownValHigh | 61 => UnknownValLow | 62 => BadPower
  | 63 => PowerCycle | 64 => HallSensor | 65 => BadCurrent
  | 66 => BadConnection | 67 => Nack
  | _ => Unexpected
  end.

(** [type Result<T> = std::result::Result<T, ReturnCode>]. *)
Inductive Result (T : Type) :=
| ROk (v : T)
| RErr (e : ReturnCode).
Arguments ROk {T} v.
Arguments RErr {T} e.

(** [ReturnCode::result]. *)
Definition result (rc : N) : Result unit :=
  match rc with
  | 0 => ROk tt
  | _ => RErr (from rc)
  end.

(** The fixed code table of [From<c_uint>]: its explicit arms, in order. *)
Definition code_table : list (N * ReturnCode) :=
  map (fun r => (discriminant r, r))
    [Ok; Perm; NoEnt; Timeout; Interrupted; Io; NoMemory; Access; Fault;
     Busy; Exist; NotDir; IsDir; Invalid; NFile; MFile; NoSPC; FBig; ROFS;
     RO; Unsupported; InvalidArg; Again; NotEmpty; Duplicate; Unexpected;
     Eof; ConnRef; BadPassword; NoDev; Pipe; Resolv; NetUnavail; ConnReset;
     HostUnreach; WrongDevice; UnknownVal; NotAttached; InvalidPacket;
     TooBig; BadVersion; Closed; NotConfigured; KeepAlive; Failsafe;
     UnknownValHigh; UnknownValLow; BadPower; PowerCycle; HallSensor;
     BadCurrent; BadConnection; Nack].

Fixpoint lookup (n : N) (t : list (N * ReturnCode)) : option ReturnCode :=
  match t with
  | [] => None
  | (k, r) :: t' => if N.eqb n k then Some r else lookup n t'
  end.

End Errors.

(** ** The native library and the effect monad *)

Module Native.
Import Errors.

(** Native opaque handles and boxed-closure context pointers; [0] is null. *)
Definition Handle := N.
Definition Ptr := N.

(** The entry points of [phidget_sys] that the embedded code calls. *)
Inductive Call :=
| Phidget_getIsOpen (h : Handle)
| Phidget_close (h : Handle)
| Phidget_openWaitForAttachment (h : Handle) (ms : N)
| Phidget_retain (h : Handle)
| Phidget_release (h : Handle)
| Phidget_setOnAttachHandler (h : Handle) (ctx : Ptr)
| Phidget_setOnDetachHandler (h : Handle) (ctx : Ptr)
| Phidget_getDeviceSKU (h : Handle)
| Phidget_getDeviceLabel (h : Handle)
| Phidget_getDeviceName (h : Handle)
| Phidget_getChannelName (h : Handle)
| Phidget_getLibraryVersion
| PhidgetHumiditySensor_delete (h : Handle)
| PhidgetHumiditySensor_setOnHumidityChangeHandler (h : Handle) (ctx : Ptr)
| PhidgetManager_close (h : Handle)
| PhidgetManager_delete (h : Handle)
| PhidgetManager_setOnAttachHandler (h : Handle) (ctx : Ptr)
| PhidgetManager_setOnDetachHandler (h : Handle) (ctx : Ptr).

(** What the Rust side does, in order: native calls, [Box::into_raw] of a
    double-boxed closure, [Box::from_raw] of it being dropped (the free), and
    a call of the user closure from a trampoline. *)
Inductive Event :=
| ENative (c : Call)
| EAlloc (p : Ptr)
| EFree (p : Ptr)
| EInvoke (p : Ptr).

(** The native library's answers: the return code of each call, the
    [c_int] written by [Phidget_getIsOpen] and the [const char*] written by
    a string getter ([None] for a null pointer). *)
Record Env := {
  ret_code : Call -> N;
  open_out : Handle -> N;
  str_out : Call -> option string
}.

Record World := {
  trace : list Event;
  next_ptr : Ptr
}.

(** A state monad over the world. *)
Definition M (A : Type) := World -> A * World.

Definition ret {A} (a : A) : M A := fun w => (a, w).
Definition bind {A B} (c : M A) (k : A -> M B) : M B :=
  fun w => let (a, w') := c w in k a w'.

Notation "x <- c1 ;; c2" := (bind c1 (fun x => c2))
  (at level 61, c1 at next level, right associativity).
Notation "c1 ;; c2" := (bind c1 (fun _ => c2))
  (at level 61, right associativity).

Definition emit (e : Event) : M unit :=
  fun w => (tt, {| trace := trace w ++ [e]; next_ptr := next_ptr w |}).

(** [Box::into_raw(Box::new(Box::new(cb)))]: a fresh non-null pointer. *)
Definition alloc_box : M Ptr :=
  fun w => (next_ptr w,
            {| trace := trace w ++ [EAlloc (next_ptr w)];
               next_ptr := N.succ (next_ptr w) |}).

(** The [?] operator on a [Result] inside the monad. *)
Definition try {A B} (r : Result A) (k : A -> M (Result B)) : M (Result B) :=
  match r with
  | ROk a => k a
  | RErr e => ret (RErr e)
  end.

Section WithEnv.
Variable env : Env.

Definition native (c : Call) : M N :=
  emit (ENative c) ;; ret (ret_code env c).

(** A call with a [*mut *const c_char] out-parameter. *)
Definition native_str (c : Call) : M (N * option string) :=
  emit (ENative c) ;; ret (ret_code env c, str_out env c).

End WithEnv.

Definition initial_world : World := {| trace := []; next_ptr := 1 |}.

Fixpoint count_free (p : Ptr) (t : list Event) : nat :=
  match t with
  | [] => 0
  | EFree q :: t' => (if N.eqb p q then 1 else 0) + count_free p t'
  | _ :: t' => count_free p t'
  end.

End Native.

(** ** [src/lib.rs] and the [Phidget] trait of [src/phidget.rs] *)

Module Phidget.
Import Errors Native.

(** [std::time::Duration]: whole seconds and a nanosecond part below
    [10^9]. *)
Record Duration := {
  secs : N;
  nanos : N
}.

(** [Duration::as_millis] (a [u128]; [secs] is a [u64], so no overflow). *)
Definition as_millis (d : Duration) : N :=
  secs d * 1000 + nanos d / 1000000.

Definition u32_MAX : N := 4294967295.

(** [u32::try_from(x: u128)]. *)
Definition u32_try_from (x : N) : option N :=
  if x <=? u32_MAX then Some x else None.

Section WithEnv.
Variable env : Env.

(** [Phidget::is_open]. *)
Definition is_open (h : Handle) : M (Result bool) :=
  rc <- native env (Phidget_getIsOpen h) ;;
  try (result rc) (fun _ => ret (ROk (negb (N.eqb (open_out env h) 0)))).

(** [Phidget::close]. *)
Definition close (h : Handle) : M (Result unit) :=
  rc <- native env (Phidget_close h) ;;
  ret (result rc).

(** [Phidget::open_wait]. *)
Definition open_wait (h : Handle) (to : Duration) : M (Result unit) :=
  match u32_try_from (as_millis to) with
  | None => ret (RErr InvalidArg)
  | Some ms =>
      rc <- native env (Phidget_openWaitForAttachment h ms) ;;
      ret (result rc)
  end.

(** The [if let Ok(true) = self.is_open() { let _ = self.close(); }]
    prologue shared by the [Drop] impls. *)
Definition close_if_open (h : Handle) : M unit :=
  o <- is_open h ;;
  match o with
  | ROk true => close h ;; ret tt
  | _ => ret tt
  end.

(** [get_ffi_string], for the call [f] made by its closure. *)
Definition get_ffi_string (f : Call) : M (Result string) :=
  r <- native_str env f ;;
  let (rc, ver) := r in
  try (result rc) (fun _ =>
    match ver with
    | None => ret (RErr NoMemory)
    | Some s => ret (ROk s)
    end).

(** [Phidget::device_name], one of the [get_ffi_string] callers. *)
Definition device_name (h : Handle) : M (Result string) :=
  get_ffi_string (Phidget_getDeviceName h).

(** [Phidget::device_sku]. *)
Definition device_sku (h : Handle) : M (Result string) :=
  r <- native_str env (Phidget_getDeviceSKU h) ;;
  let (rc, sku) := r in
  try (result rc) (fun _ =>
    ret (ROk (match sku with
              | None => EmptyString
              | Some s => s
              end))).

(** [Phidget::device_label]. *)
Definition device_label (h : Handle) : M (Result (option string)) :=
  r <- native_str env (Phidget_getDeviceLabel h) ;;
  let (rc, sku) := r in
  try (result rc) (fun _ => ret (ROk sku)).

(** [phidget::set_on_attach_handler]: box the closure, register it, and hand
    the context pointer back to the caller. *)
Definition set_on_attach_handler (h : Handle) : M (Result Ptr) :=
  ctx <- alloc_box ;;
  rc <- native env (Phidget_setOnAttachHandler h ctx) ;;
  try (result rc) (fun _ => ret (ROk ctx)).

(** [phidget::set_on_detach_handler]. *)
Definition set_on_detach_handler (h : Handle) : M (Result Ptr) :=
  ctx <- alloc_box ;;
  rc <- native env (Phidget_setOnDetachHandler h ctx) ;;
  try (result rc) (fun _ => ret (ROk ctx)).

End WithEnv.

(** [drop_cb]: [Box::from_raw] of the slot's pointer, if any, dropped. *)
Definition drop_cb (cb : option Ptr) : M unit :=
  match cb with
  | Some ctx => emit (EFree ctx)
  | None => ret tt
  end.

(** [struct PhidgetRef(PhidgetHandle)]: no [Drop] impl. *)
Record PhidgetRef := { ref_handle : Handle }.

(** [PhidgetRef::new] / [From<PhidgetHandle>]. *)
Definition PhidgetRef_new (phid : Handle) : M PhidgetRef :=
  ret {| ref_handle := phid |}.

(** Dropping a [PhidgetRef]: the drop glue of a raw pointer. *)
Definition drop_PhidgetRef (_ : PhidgetRef) : M unit := ret tt.

(** [struct GenericPhidget(PhidgetHandle)]. *)
Record GenericPhidget := { gen_handle : Handle }.

(** [impl TryFrom<PhidgetRef> for GenericPhidget]. *)
Definition GenericPhidget_try_from (env : Env) (phid : PhidgetRef)
  : M (Result GenericPhidget) :=
  rc <- native env (Phidget_retain (ref_handle phid)) ;;
  try (result rc) (fun _ => ret (ROk {| gen_handle := ref_handle phid |})).

(** [impl Drop for GenericPhidget]. *)
Definition drop_GenericPhidget (env : Env) (g : GenericPhidget) : M unit :=
  close_if_open env (gen_handle g) ;;
  native env (Phidget_release (gen_handle g)) ;;
  ret tt.

(** The [on_attach] trampoline: a [PhidgetRef] over the callback's handle
    is built, the boxed closure is called with it, and the view is dropped. *)
Definition on_attach (phid : Handle) (ctx : Ptr) : M unit :=
  if N.eqb ctx 0 then ret tt
  else
    ph <- PhidgetRef_new phid ;;
    emit (EInvoke ctx) ;;
    drop_PhidgetRef ph.

(** [n] views over one handle, built and then dropped. *)
Fixpoint make_views (n : nat) (phid : Handle) : M (list PhidgetRef) :=
  match n with
  | O => ret []
  | S n' => r <- PhidgetRef_new phid ;; rs <- make_views n' phid ;; ret (r :: rs)
  end.

Fixpoint drop_views (rs : list PhidgetRef) : M unit :=
  match rs with
  | [] => ret tt
  | r :: rs' => drop_PhidgetRef r ;; drop_views rs'
  end.

Definition views_lifecycle (n : nat) (phid : Handle) : M unit :=
  rs <- make_views n phid ;; drop_views rs.

End Phidget.

(** ** [src/devices/humidity_sensor.rs] *)

Module HumiditySensor.
Import Errors Native Phidget.

(** [struct HumiditySensor]: the channel handle and three callback slots. *)
Record HumiditySensor := {
  chan : Handle;
  cb : option Ptr;
  attach_cb : option Ptr;
  detach_cb : option Ptr
}.

(** [impl From<HumiditySensorHandle> for HumiditySensor]. *)
Definition from (c : Handle) : HumiditySensor :=
  {| chan := c; cb := None; attach_cb := None; detach_cb := None |}.

Definition with_cb (s : HumiditySensor) (p : option Ptr) : HumiditySensor :=
  {| chan := chan s; cb := p; attach_cb := attach_cb s; detach_cb := detach_cb s |}.
Definition with_attach_cb (s : HumiditySensor) (p : option Ptr) : HumiditySensor :=
  {| chan := chan s; cb := cb s; attach_cb := p; detach_cb := detach_cb s |}.
Definition with_detach_cb (s : HumiditySensor) (p : option Ptr) : HumiditySensor :=
  {| chan := chan s; cb := cb s; attach_cb := attach_cb s; detach_cb := p |}.

Section WithEnv.
Variable env : Env.

(** [HumiditySensor::set_on_humidity_change_handler] ([&mut self] is
    threaded: the function returns the result and the updated struct). The
    slot is written before the native call. *)
Definition set_on_humidity_change_handler (s : HumiditySensor)
  : M (Result unit * HumiditySensor) :=
  ctx <- alloc_box ;;
  let s := with_cb s (Some ctx) in
  rc <- native env (PhidgetHumiditySensor_setOnHumidityChangeHandler (chan s) ctx) ;;
  ret (result rc, s).

(** [HumiditySensor::set_on_attach_handler]. *)
Definition set_on_attach_handler (s : HumiditySensor)
  : M (Result unit * HumiditySensor) :=
  r <- Phidget.set_on_attach_handler env (chan s) ;;
  match r with
  | RErr e => ret (RErr e, s)
  | ROk ctx => ret (ROk tt, with_attach_cb s (Some ctx))
  end.

(** [HumiditySensor::set_on_detach_handler]. *)
Definition set_on_detach_handler (s : HumiditySensor)
  : M (Result unit * HumiditySensor) :=
  r <- Phidget.set_on_detach_handler env (chan s) ;;
  match r with
  | RErr e => ret (RErr e, s)
  | ROk ctx => ret (ROk tt, with_detach_cb s (Some ctx))
  end.

(** [impl Drop for HumiditySensor]. *)
Definition drop (s : HumiditySensor) : M unit :=
  close_if_open env (chan s) ;;
  native env (PhidgetHumiditySensor_delete (chan s)) ;;
  drop_cb (cb s) ;;
  drop_cb (attach_cb s) ;;
  drop_cb (detach_cb s).


(** Registrations a client makes on one sensor. *)
Inductive Op := SetHumidityChange | SetAttach | SetDetach.

Definition step (o : Op) (s : HumiditySensor) : M (Result unit * HumiditySensor) :=
  match o with
  | SetHumidityChange => set_on_humidity_change_handler s
  | SetAttach => set_on_attach_handler s
  | SetDetach => set_on_detach_handler s
  end.

Fixpoint run_ops (ops : list Op) (s : HumiditySensor) : M HumiditySensor :=
  match ops with
  | [] => ret s
  | o :: ops' => r <- step o s ;; run_ops ops' (snd r)
  end.

End WithEnv.

(** Whether [p] is held in one of the slots. *)
Definition in_slots (s : HumiditySensor) (p : Ptr) : bool :=
  match cb s with Some q => N.eqb p q | None => false end
  || match attach_cb s with Some q => N.eqb p q | None => false end
  || match detach_cb s with Some q => N.eqb p q | None => false end.

(** The slots hold pointers below [n] (already allocated) and no pointer
    sits in two slots. *)
Definition below (o : option Ptr) (n : Ptr) : Prop :=
  match o with Some p => p < n | None => True end.

Definition apart (o1 o2 : option Ptr) : Prop :=
  match o1, o2 with Some p, Some q => p <> q | _, _ => True end.

Definition slots_inv (s : HumiditySensor) (n : Ptr) : Prop :=
  below (cb s) n /\ below (attach_cb s) n /\ below (detach_cb s) n /\
  apart (cb s) (attach_cb s) /\ apart (cb s) (detach_cb s) /\
  apart (attach_cb s) (detach_cb s).

End HumiditySensor.

(** ** [src/manager.rs] *)

Module Manager.
Import Errors Native Phidget.

(** [struct PhidgetManager]. *)
Record PhidgetManager := {
  mgr : Handle;
  attach_cb : option Ptr;
  detach_cb : option Ptr
}.

(** [impl From<PhidgetManagerHandle> for PhidgetManager]. *)
Definition from (m : Handle) : PhidgetManager :=
  {| mgr := m; attach_cb := None; detach_cb := None |}.

Section WithEnv.
Variable env : Env.

(** [PhidgetManager::set_on_attach_handler]. *)
Definition set_on_attach_handler (s : PhidgetManager)
  : M (Result unit * PhidgetManager) :=
  ctx <- alloc_box ;;
  rc <- native env (PhidgetManager_setOnAttachHandler (mgr s) ctx) ;;
  match result rc with
  | RErr e => ret (RErr e, s)
  | ROk _ =>
      ret (ROk tt, {| mgr := mgr s; attach_cb := Some ctx; detach_cb := detach_cb s |})
  end.

(** [PhidgetManager::set_on_detach_handler]. *)
Definition set_on_detach_handler (s : PhidgetManager)
  : M (Result unit * PhidgetManager) :=
  ctx <- alloc_box ;;
  rc <- native env (PhidgetManager_setOnDetachHandler (mgr s) ctx) ;;
  match result rc with
  | RErr e => ret (RErr e, s)
  | ROk _ =>
      ret (ROk tt, {| mgr := mgr s; attach_cb := attach_cb s; detach_cb := Some ctx |})
  end.

(** [impl Drop for PhidgetManager]. *)
Definition drop (s : PhidgetManager) : M unit :=
  native env (PhidgetManager_close (mgr s)) ;;
  ret tt.

End WithEnv.

End Manager.

(** ** The class and id enums of [src/lib.rs]

    [DeviceId], [ChannelClass] and [DeviceClass] are [#[repr(u32)]] enums
    whose discriminants are the [phidget22.h] constants that bindgen
    generates into [phidget_sys] (not part of this repository): here they are
    a function [discr] from the variants to [N], a parameter of the
    definitions. Each [TryFrom<u32>] impl matches those constants arm by arm,
    in the order of the enum declaration, mapping each constant to the
    variant declared with it, and falls back to [Err(InvalidArg)]; that is a
    first-match search of the declaration list. *)

Module Enums.
Import Errors.

Section TryFromTable.
Context {T : Type}.

(** A [match val { C1 => Ok(V1), ..., _ => Err(ReturnCode::InvalidArg) }]
    over the constants of [variants], in order. *)
Definition enum_try_from (variants : list T) (discr : T -> N) (val : N)
  : Result T :=
  match find (fun r => N.eqb (discr r) val) variants with
  | Some r => ROk r
  | None => RErr InvalidArg
  end.

End TryFromTable.

(** Whether a list of discriminants has no duplicate (the compiler rejects
    an enum with two equal discriminants). *)
Fixpoint distinct (l : list N) : bool :=
  match l with
  | [] => true
  | x :: l' => negb (existsb (N.eqb x) l') && distinct l'
  end.


(** [enum DeviceId] of [src/lib.rs], its variants in declaration order. *)
Module DeviceId.

Inductive DeviceId :=
| Nothing | Unknown | DigitalInputPort | DigitalOutputPort
| VoltageInputPort | VoltageRatioInputPort | Dictionary | Phidget1000
| Phidget1001 | Phidget1002 | Phidget1008 | Phidget1010_1013_1018_1019
| Phidget1011 | Phidget1012 | Phidget1014 | Phidget1015 | Phidget1016
| Phidget1017 | Phidget1023 | Phidget1024 | Phidget1030 | Phidget1031
| Phidget1032 | Phidget1040 | Phidget1041 | Phidget1042 | Phidget1043
| Phidget1044 | Phidget1045 | Phidget1046 | Phidget1047 | Phidget1048
| Phidget1049 | Phidget1051 | Phidget1052 | Phidget1053 | Phidget1054
| Phidget1055 | Phidget1056 | Phidget1057 | Phidget1058 | Phidget1059
| Phidget1060 | Phidget1061 | Phidget1062 | Phidget1063 | Phidget1064
| Phidget1065 | Phidget1066 | Phidget1067 | Phidget1202_1203 | Phidget1204
| Phidget1215_1218 | Phidget1219_1222 | Adp1000 | Daq1000 | Daq1200
| Daq1300 | Daq1301 | Daq1400 | Daq1500 | Dcc1000 | Dcc1001 | Dcc1002
| Dcc1003 | Dcc1100 | Dst1000 | Dst1001 | Dst1002 | Dst1200 | Enc1000
| Enc1001 | FirmwareUpgradeSpi | FirmwareUpgradeStm32f0
| FirmwareUpgradeStm32f3 | FirmwareUpgradeStm32g0 | FirmwareUpgradeStm8s
| FirmwareUpgradeUsb | Hin1000 | Hin1001 | Hin1100 | Hin1101 | Hub0000
| Hub0001 | Hub0002 | Hub0004 | Hub0007 | Hub5000 | Hum1000 | Hum1001
| Hum1100 | InterfaceKit4_8_8 | Lcd1100 | Led1000 | Lux1000 | Mot0100
| Mot0109 | Mot0110 | Mot1100 | Mot1101 | Mot1102 | Out1000 | Out1001
| Out1002 | Out1100 | Pre1000 | Rcc0004 | Rcc1000 | Rel1000 | Rel1100
| Rel1101 | Saf1000 | Snd1000 | Stc1000 | Stc1001 | Stc1002 | Stc1003
| Stc1005 | Tmp1000 | Tmp1100 | Tmp1101 | Tmp1200 | Vcp1000 | Vcp1001
| Vcp1002 | Vcp1100.

Definition all : list DeviceId :=
  [Nothing; Unknown; DigitalInputPort; DigitalOutputPort;
   VoltageInputPort; VoltageRatioInputPort; Dictionary; Phidget1000;
   Phidget1001; Phidget1002; Phidget1008; Phidget1010_1013_1018_1019;
   Phidget1011; Phidget1012; Phidget1014; Phidget1015; Phidget1016;
   Phidget1017; Phidget1023; Phidget1024; Phidget1030; Phidget1031;
   Phidget1032; Phidget1040; Phidget1041; Phidget1042; Phidget1043;
   Phidget1044; Phidget1045; Phidget1046; Phidget1047; Phidget1048;
   Phidget1049; Phidget1051; Phidget1052; Phidget1053; Phidget1054;
   Phidget1055; Phidget1056; Phidget1057; Phidget1058; Phidget1059;
   Phidget1060; Phidget1061; Phidget1062; Phidget1063; Phidget1064;
   Phidget1065; Phidget1066; Phidget1067; Phidget1202_1203; Phidget1204;
   Phidget1215_1218; Phidget1219_1222; Adp1000; Daq1000; Daq1200; Daq1300;
   Daq1301; Daq1400; Daq1500; Dcc1000; Dcc1001; Dcc1002; Dcc1003; Dcc1100;
   Dst1000; Dst1001; Dst1002; Dst1200; Enc1000; Enc1001;
   FirmwareUpgradeSpi; FirmwareUpgradeStm32f0; FirmwareUpgradeStm32f3;
   FirmwareUpgradeStm32g0; FirmwareUpgradeStm8s; FirmwareUpgradeUsb;
   Hin1000; Hin1001; Hin1100; Hin1101; Hub0000; Hub0001; Hub0002; Hub0004;
   Hub0007; Hub5000; Hum1000; Hum1001; Hum1100; InterfaceKit4_8_8;
   Lcd1100; Led1000; Lux1000; Mot0100; Mot0109; Mot0110; Mot1100; Mot1101;
   Mot1102; Out1000; Out1001; Out1002; Out1100; Pre1000; Rcc0004; Rcc1000;
   Rel1000; Rel1100; Rel1101; Saf1000; Snd1000; Stc1000; Stc1001; Stc1002;
   Stc1003; Stc1005; Tmp1000; Tmp1100; Tmp1101; Tmp1200; Vcp1000; Vcp1001;
   Vcp1002; Vcp1100].

(** [impl TryFrom<u32> for DeviceId]. *)
Definition try_from (discr : DeviceId -> N) (val : N) : Result DeviceId :=
  enum_try_from all discr val.

(** A sample assignment of distinct constants (the declaration index). *)
Definition sample_discr (r : DeviceId) : N :=
  match r with
  | Nothing => 0
  | Unknown => 1
  | DigitalInputPort => 2
  | DigitalOutputPort => 3
  | VoltageInputPort => 4
  | VoltageRatioInputPort => 5
  | Dictionary => 6
  | Phidget1000 => 7
  | Phidget1001 => 8
  | Phidget1002 => 9
  | Phidget1008 => 10
  | Phidget1010_1013_1018_1019 => 11
  | Phidget1011 => 12
  | Phidget1012 => 13
  | Phidget1014 => 14
  | Phidget1015 => 15
  | Phidget1016 => 16
  | Phidget1017 => 17
  | Phidget1023 => 18
  | Phidget1024 => 19
  | Phidget1030 => 20
  | Phidget1031 => 21
  | Phidget1032 => 22
  | Phidget1040 => 23
  | Phidget1041 => 24
  | Phidget1042 => 25
  | Phidget1043 => 26
  | Phidget1044 => 27
  | Phidget1045 => 28
  | Phidget1046 => 29
  | Phidget1047 => 30
  | Phidget1048 => 31
  | Phidget1049 => 32
  | Phidget1051 => 33
  | Phidget1052 => 34
  | Phidget1053 => 35
  | Phidget1054 => 36
  | Phidget1055 => 37
  | Phidget1056 => 38
  | Phidget1057 => 39
  | Phidget1058 => 40
  | Phidget1059 => 41
  | Phidget1060 => 42
  | Phidget1061 => 43
  | Phidget1062 => 44
  | Phidget1063 => 45
  | Phidget1064 => 46
  | Phidget1065 => 47
  | Phidget1066 => 48
  | Phidget1067 => 49
  | Phidget1202_1203 => 50
  | Phidget1204 => 51
  | Phidget1215_1218 => 52
  | Phidget1219_1222 => 53
  | Adp1000 => 54
  | Daq1000 => 55
  | Daq1200 => 56
  | Daq1300 => 57
  | Daq1301 => 58
  | Daq1400 => 59
  | Daq1500 => 60
  | Dcc1000 => 61
  | Dcc1001 => 62
  | Dcc1002 => 63
  | Dcc1003 => 64
  | Dcc1100 => 65
  | Dst1000 => 66
  | Dst1001 => 67
  | Dst1002 => 68
  | Dst1200 => 69
  | Enc1000 => 70
  | Enc1001 => 71
  | FirmwareUpgradeSpi => 72
  | FirmwareUpgradeStm32f0 => 73
  | FirmwareUpgradeStm32f3 => 74
  | FirmwareUpgradeStm32g0 => 75
  | FirmwareUpgradeStm8s => 76
  | FirmwareUpgradeUsb => 77
  | Hin1000 => 78
  | Hin1001 => 79
  | Hin1100 => 80
  | Hin1101 => 81
  | Hub0000 => 82
  | Hub0001 => 83
  | Hub0002 => 84
  | Hub0004 => 85
  | Hub0007 => 86
  | Hub5000 => 87
  | Hum1000 => 88
  | Hum1001 => 89
  | Hum1100 => 90
  | InterfaceKit4_8_8 => 91
  | Lcd1100 => 92
  | Led1000 => 93
  | Lux1000 => 94
  | Mot0100 => 95
  | Mot0109 => 96
  | Mot0110 => 97
  | Mot1100 => 98
  | Mot1101 => 99
  | Mot1102 => 100
  | Out1000 => 101
  | Out1001 => 102
  | Out1002 => 103
  | Out1100 => 104
  | Pre1000 => 105
  | Rcc0004 => 106
  | Rcc1000 => 107
  | Rel1000 => 108
  | Rel1100 => 109
  | Rel1101 => 110
  | Saf1000 => 111
  | Snd1000 => 112
  | Stc1000 => 113
  | Stc1001 => 114
  | Stc1002 => 115
  | Stc1003 => 116
  | Stc1005 => 117
  | Tmp1000 => 118
  | Tmp1100 => 119
  | Tmp1101 => 120
  | Tmp1200 => 121
  | Vcp1000 => 122
  | Vcp1001 => 123
  | Vcp1002 => 124
  | Vcp1100 => 125
  end.

End DeviceId.

(** [enum ChannelClass] of [src/lib.rs], its variants in declaration order. *)
Module ChannelClass.

Inductive ChannelClass :=
| Nothing | Accelerometer | BldcMotor | CaptiveTouch | CurrentInput
| CurrentOutput | DataAdapter | DcMotor | Dictionary | DigitalInput
| DigitalOutput | DistanceSensor | Encoder | FirmwareUpgrade
| FrequencyCounter | Generic | Gps | Gyroscope | Hub | HumiditySensor | Ir
| Lcd | LightSensor | Magnetometer | MeshDongle | MotorPositionController
| MotorVelocityController | PhSensor | PowerGuard | PressureSensor
| RcServo | ResistanceInput | Rfid | SoundSensor | Spatial | Stepper
| TemperatureSensor | VoltageInput | VoltageOutput | VoltageRatioInput.

Definition all : list ChannelClass :=
  [Nothing; Accelerometer; BldcMotor; CaptiveTouch; CurrentInput;
   CurrentOutput; DataAdapter; DcMotor; Dictionary; DigitalInput;
   DigitalOutput; DistanceSensor; Encoder; FirmwareUpgrade;
   FrequencyCounter; Generic; Gps; Gyroscope; Hub; HumiditySensor; Ir;
   Lcd; LightSensor; Magnetometer; MeshDongle; MotorPositionController;
   MotorVelocityController; PhSensor; PowerGuard; PressureSensor; RcServo;
   ResistanceInput; Rfid; SoundSensor; Spatial; Stepper;
   TemperatureSensor; VoltageInput; VoltageOutput; VoltageRatioInput].

(** [impl TryFrom<u32> for ChannelClass]. *)
Definition try_from (discr : ChannelClass -> N) (val : N) : Result ChannelClass :=
  enum_try_from all discr val.

(** A sample assignment of distinct constants (the declaration index). *)
Definition sample_discr (r : ChannelClass) : N :=
  match r with
  | Nothing => 0
  | Accelerometer => 1
  | BldcMotor => 2
  | CaptiveTouch => 3
  | CurrentInput => 4
  | CurrentOutput => 5
  | DataAdapter => 6
  | DcMotor => 7
  | Dictionary => 8
  | DigitalInput => 9
  | DigitalOutput => 10
  | DistanceSensor => 11
  | Encoder => 12
  | FirmwareUpgrade => 13
  | FrequencyCounter => 14
  | Generic => 15
  | Gps => 16
  | Gyroscope => 17
  | Hub => 18
  | HumiditySensor => 19
  | Ir => 20
  | Lcd => 21
  | LightSensor => 22
  | Magnetometer => 23
  | MeshDongle => 24
  | MotorPositionController => 25
  | MotorVelocityController => 26
  | PhSensor => 27
  | PowerGuard => 28
  | PressureSensor => 29
  | RcServo => 30
  | ResistanceInput => 31
  | Rfid => 32
  | SoundSensor => 33
  | Spatial => 34
  | Stepper => 35
  | TemperatureSensor => 36
  | VoltageInput => 37
  | VoltageOutput => 38
  | VoltageRatioInput => 39
  end.

End ChannelClass.

(** [enum DeviceClass] of [src/lib.rs], its variants in declaration order. *)
Module DeviceClass.

Inductive DeviceClass :=
| Nothing | Accelerometer | AdvancedServo | Analog | Bridge | DataAdapter
| Dictionary | Encoder | FirmwareUpgrade | FrequencyCounter | Generic
| Gps | Hub | InterfaceKit | Ir | Led | MeshDongle | MotorControl
| PhSensor | Rfid | Servo | Spatial | Steper | TemperatreSensor | TextLcd
| Vint.

Definition all : list DeviceClass :=
  [Nothing; Accelerometer; AdvancedServo; Analog; Bridge; DataAdapter;
   Dictionary; Encoder; FirmwareUpgrade; FrequencyCounter; Generic; Gps;
   Hub; InterfaceKit; Ir; Led; MeshDongle; MotorControl; PhSensor; Rfid;
   Servo; Spatial; Steper; TemperatreSensor; TextLcd; Vint].

(** [impl TryFrom<u32> for DeviceClass]. *)
Definition try_from (discr : DeviceClass -> N) (val : N) : Result DeviceClass :=
  enum_try_from all discr val.

(** A sample assignment of distinct constants (the declaration index). *)
Definition sample_discr (r : DeviceClass) : N :=
  match r with
  | Nothing => 0
  | Accelerometer => 1
  | AdvancedServo => 2
  | Analog => 3
  | Bridge => 4
  | DataAdapter => 5
  | Dictionary => 6
  | Encoder => 7
  | FirmwareUpgrade => 8
  | FrequencyCounter => 9
  | Generic => 10
  | Gps => 11
  | Hub => 12
  | InterfaceKit => 13
  | Ir => 14
  | Led => 15
  | MeshDongle => 16
  | MotorControl => 17
  | PhSensor => 18
  | Rfid => 19
  | Servo => 20
  | Spatial => 21
  | Steper => 22
  | TemperatreSensor => 23
  | TextLcd => 24
  | Vint => 25
  end.

End DeviceClass.

End Enums.

(** ** More of the [Phidget] trait ([src/phidget.rs])

    The filter setters, the label setters, the data interval and [info].
    Their native entry points form a second call type; the monad here only
    records the calls made, as none of these functions allocates. *)

Module PhidgetExt.
Import Errors Enums.

(** Native entry points used by these trait methods ([c_int] and [i32]
    arguments as [Z], [u32] ones as [N]). *)
Inductive XCall :=
| Phidget_setChannel (h : Native.Handle) (chan : Z)
| Phidget_setDeviceSerialNumber (h : Native.Handle) (sn : Z)
| Phidget_setIsHubPortDevice (h : Native.Handle) (on : Z)
| Phidget_setHubPort (h : Native.Handle) (port : Z)
| Phidget_setDeviceLabel (h : Native.Handle) (label : string)
| Phidget_writeDeviceLabel (h : Native.Handle) (label : string)
| Phidget_getDataInterval (h : Native.Handle)
| Phidget_setDataInterval (h : Native.Handle) (ms : N)
| Phidget_getChannelName (h : Native.Handle)
| Phidget_getChannelClass (h : Native.Handle)
| Phidget_getChannel (h : Native.Handle)
| Phidget_getDeviceName (h : Native.Handle)
| Phidget_getDeviceClass (h : Native.Handle)
| Phidget_getDeviceID (h : Native.Handle)
| Phidget_getDeviceLabel (h : Native.Handle)
| Phidget_getDeviceSerialNumber (h : Native.Handle)
| Phidget_getIsHubPortDevice (h : Native.Handle)
| Phidget_getHubPort (h : Native.Handle)
| Phidget_getDeviceSKU (h : Native.Handle).

(** The native library's answers: return code, and the value written to
    an integer, [u32] or string out-parameter ([None]: null pointer). *)
Record XEnv := {
  xret : XCall -> N;
  xint : XCall -> Z;
  xu32 : XCall -> N;
  xstr : XCall -> option string
}.

Definition XM (A : Type) := list XCall -> A * list XCall.

Definition xreturn {A} (a : A) : XM A := fun t => (a, t).
Definition xbind {A B} (c : XM A) (k : A -> XM B) : XM B :=
  fun t => let (a, t') := c t in k a t'.

Notation "'let*' x ':=' c1 'in' c2" := (xbind c1 (fun x => c2))
  (at level 61, x name, c1 at next level, right associativity).

(** The [?] operator. *)
Definition xtry {A B} (r : Result A) (k : A -> XM (Result B)) : XM (Result B) :=
  match r with
  | ROk a => k a
  | RErr e => xreturn (RErr e)
  end.

(** [if let Some(x) = o { k(x)?; }]. *)
Definition if_some {A} (o : option A) (k : A -> XM (Result unit))
  : XM (Result unit) :=
  match o with
  | Some x => k x
  | None => xreturn (ROk tt)
  end.

(** Whether [CString::new] rejects the string: it holds a NUL byte. *)
Fixpoint has_nul (s : string) : bool :=
  match s with
  | EmptyString => false
  | String c s' => Ascii.eqb c Ascii.zero || has_nul s'
  end.

(** [Duration::from_millis]. *)
Definition from_millis (ms : N) : Phidget.Duration :=
  {| Phidget.secs := ms / 1000; Phidget.nanos := (ms mod 1000) * 1000000 |}.

(** [pub struct PhidgetFilter]. *)
Record PhidgetFilter := {
  f_channel : option Z;
  f_serial_number : option Z;
  f_is_hub_port_device : option bool;
  f_hub_port : option Z;
  f_device_label : option string
}.

(** [pub struct PhidgetInfo]. *)
Record PhidgetInfo := {
  channel_name : string;
  channel_class : ChannelClass.ChannelClass;
  channel : Z;
  device_name : string;
  device_class : DeviceClass.DeviceClass;
  device_id : DeviceId.DeviceId;
  device_label : option string;
  serial_number : Z;
  is_hub_port_device : bool;
  hub_port : option Z;
  device_sku : string
}.

(** [impl From<PhidgetInfo> for PhidgetFilter]. *)
Definition filter_from_info (info : PhidgetInfo) : PhidgetFilter :=
  {| f_channel := Some (channel info);
     f_serial_number := Some (serial_number info);
     f_is_hub_port_device := Some (is_hub_port_device info);
     f_hub_port := hub_port info;
     f_device_label := device_label info |}.

(** [Result::ok]. *)
Definition ok {A} (r : Result A) : option A :=
  match r with
  | ROk a => Some a
  | RErr _ => None
  end.

(** [c_int::from(bool)]. *)
Definition c_int_of_bool (b : bool) : Z := if b then 1%Z else 0%Z.

Section WithEnv.
Variable xenv : XEnv.
(** The [phidget22.h] constants behind the three class and id enums. *)
Variable ch_discr : ChannelClass.ChannelClass -> N.
Variable dc_discr : DeviceClass.DeviceClass -> N.
Variable id_discr : DeviceId.DeviceId -> N.

Definition xnative (c : XCall) : XM N := fun t => (xret xenv c, t ++ [c]).

(** [ReturnCode::result(unsafe { ffi::...(...) })]. *)
Definition xcall (c : XCall) : XM (Result unit) :=
  let* rc := xnative c in xreturn (result rc).

(** A getter writing an out-parameter: [result(..)?; Ok(f(out))]. *)
Definition xget {A} (c : XCall) (f : XCall -> A) : XM (Result A) :=
  let* rc := xnative c in xtry (result rc) (fun _ => xreturn (ROk (f c))).

Definition set_channel (h : Native.Handle) (chan : Z) : XM (Result unit) :=
  xcall (Phidget_setChannel h chan).
Definition set_serial_number (h : Native.Handle) (sn : Z) : XM (Result unit) :=
  xcall (Phidget_setDeviceSerialNumber h sn).
Definition set_is_hub_port_device (h : Native.Handle) (on : bool)
  : XM (Result unit) :=
  xcall (Phidget_setIsHubPortDevice h (c_int_of_bool on)).
Definition set_hub_port (h : Native.Handle) (port : Z) : XM (Result unit) :=
  xcall (Phidget_setHubPort h port).

(** [Phidget::set_device_label]: [CString::new(label)?] maps a NUL byte to
    [Invalid] (through [From<NulError>]) before any native call. *)
Definition set_device_label (h : Native.Handle) (label : string)
  : XM (Result unit) :=
  if has_nul label then xreturn (RErr Invalid)
  else xcall (Phidget_setDeviceLabel h label).

(** [Phidget::write_device_label]. *)
Definition write_device_label (h : Native.Handle) (label : string)
  : XM (Result unit) :=
  if has_nul label then xreturn (RErr Invalid)
  else xcall (Phidget_writeDeviceLabel h label).

(** [Phidget::set_filter]. *)
Definition set_filter (h : Native.Handle) (filter : PhidgetFilter)
  : XM (Result unit) :=
  let* r := if_some (f_channel filter) (set_channel h) in
  xtry r (fun _ =>
  let* r := if_some (f_serial_number filter) (set_serial_number h) in
  xtry r (fun _ =>
  let* r := if_some (f_is_hub_port_device filter) (set_is_hub_port_device h) in
  xtry r (fun _ =>
  let* r := if_some (f_hub_port filter) (set_hub_port h) in
  xtry r (fun _ =>
  let* r := if_some (f_device_label filter) (set_device_label h) in
  xtry r (fun _ => xreturn (ROk tt)))))).

(** [Phidget::data_interval]. *)
Definition data_interval (h : Native.Handle) : XM (Result Phidget.Duration) :=
  xget (Phidget_getDataInterval h) (fun c => from_millis (xu32 xenv c)).

(** [Phidget::set_data_interval]. *)
Definition set_data_interval (h : Native.Handle) (interval : Phidget.Duration)
  : XM (Result unit) :=
  match Phidget.u32_try_from (Phidget.as_millis interval) with
  | None => xreturn (RErr InvalidArg)
  | Some ms => xcall (Phidget_setDataInterval h ms)
  end.

(** [get_ffi_string] over these calls. *)
Definition get_ffi_string (c : XCall) : XM (Result string) :=
  let* rc := xnative c in
  xtry (result rc) (fun _ =>
    match xstr xenv c with
    | None => xreturn (RErr NoMemory)
    | Some s => xreturn (ROk s)
    end).

(** The getters [info] uses. *)
Definition get_channel_name (h : Native.Handle) : XM (Result string) :=
  get_ffi_string (Phidget_getChannelName h).
Definition get_channel_class (h : Native.Handle)
  : XM (Result ChannelClass.ChannelClass) :=
  let* rc := xnative (Phidget_getChannelClass h) in
  xtry (result rc) (fun _ =>
    xreturn (ChannelClass.try_from ch_discr (xu32 xenv (Phidget_getChannelClass h)))).
Definition get_channel (h : Native.Handle) : XM (Result Z) :=
  xget (Phidget_getChannel h) (xint xenv).
Definition get_device_name (h : Native.Handle) : XM (Result string) :=
  get_ffi_string (Phidget_getDeviceName h).
Definition get_device_class (h : Native.Handle)
  : XM (Result DeviceClass.DeviceClass) :=
  let* rc := xnative (Phidget_getDeviceClass h) in
  xtry (result rc) (fun _ =>
    xreturn (DeviceClass.try_from dc_discr (xu32 xenv (Phidget_getDeviceClass h)))).
Definition get_device_id (h : Native.Handle) : XM (Result DeviceId.DeviceId) :=
  let* rc := xnative (Phidget_getDeviceID h) in
  xtry (result rc) (fun _ =>
    xreturn (DeviceId.try_from id_discr (xu32 xenv (Phidget_getDeviceID h)))).
Definition get_device_label (h : Native.Handle) : XM (Result (option string)) :=
  xget (Phidget_getDeviceLabel h) (xstr xenv).
Definition get_serial_number (h : Native.Handle) : XM (Result Z) :=
  xget (Phidget_getDeviceSerialNumber h) (xint xenv).
Definition get_is_hub_port_device (h : Native.Handle) : XM (Result bool) :=
  xget (Phidget_getIsHubPortDevice h)
    (fun c => negb (Z.eqb (xint xenv c) 0)).
Definition get_hub_port (h : Native.Handle) : XM (Result Z) :=
  xget (Phidget_getHubPort h) (xint xenv).
Definition get_device_sku (h : Native.Handle) : XM (Result string) :=
  xget (Phidget_getDeviceSKU h)
    (fun c => match xstr xenv c with None => EmptyString | Some s => s end).

(** [Phidget::info]: the fields in the order of the struct literal; every
    query but [hub_port] propagates its error, [hub_port().ok()] turns an
    error into [None]. *)
Definition info (h : Native.Handle) : XM (Result PhidgetInfo) :=
  let* r := get_channel_name h in xtry r (fun cn =>
  let* r := get_channel_class h in xtry r (fun cc =>
  let* r := get_channel h in xtry r (fun ch =>
  let* r := get_device_name h in xtry r (fun dn =>
  let* r := get_device_class h in xtry r (fun dc =>
  let* r := get_device_id h in xtry r (fun di =>
  let* r := get_device_label h in xtry r (fun dl =>
  let* r := get_serial_number h in xtry r (fun sn =>
  let* r := get_is_hub_port_device h in xtry r (fun hpd =>
  let* r := get_hub_port h in
  let hp := ok r in
  let* r := get_device_sku h in xtry r (fun sku =>
  xreturn (ROk {| channel_name := cn; channel_class := cc; channel := ch;
                  device_name := dn; device_class := dc; device_id := di;
                  device_label := dl; serial_number := sn;
                  is_hub_port_device := hpd; hub_port := hp;
                  device_sku := sku |}))))))))))).

End WithEnv.

(** The setter calls a filter asks for, in [set_filter]'s order. *)
Definition filter_calls (h : Native.Handle) (f : PhidgetFilter) : list XCall :=
  match f_channel f with Some c => [Phidget_setChannel h c] | None => [] end
  ++ match f_serial_number f with
     | Some sn => [Phidget_setDeviceSerialNumber h sn] | None => [] end
  ++ match f_is_hub_port_device f with
     | Some b => [Phidget_setIsHubPortDevice h (c_int_of_bool b)] | None => [] end
  ++ match f_hub_port f with Some p => [Phidget_setHubPort h p] | None => [] end
  ++ match f_device_label f with
     | Some l => [Phidget_setDeviceLabel h l] | None => [] end.

(** The filter with its label field cleared. *)
Definition without_label (f : PhidgetFilter) : PhidgetFilter :=
  {| f_channel := f_channel f; f_serial_number := f_serial_number f;
     f_is_hub_port_device := f_is_hub_port_device f;
     f_hub_port := f_hub_port f; f_device_label := None |}.

(** Running a list of calls in order up to the first non-zero code: the
    calls made, and the first failing call, if any. *)
Fixpoint calls_until_failure (xenv : XEnv) (cs : list XCall) : list XCall :=
  match cs with
  | [] => []
  | c :: cs' =>
      c :: (if N.eqb (xret xenv c) 0 then calls_until_failure xenv cs' else [])
  end.

Fixpoint first_failure (xenv : XEnv) (cs : list XCall) : option XCall :=
  match cs with
  | [] => None
  | c :: cs' => if N.eqb (xret xenv c) 0 then first_failure xenv cs' else Some c
  end.

End PhidgetExt.

(** ** The other callback trampolines and [open_wait_default] *)

Module Trampolines.
Import Native Phidget.




(** [TIMEOUT_DEFAULT = Duration::from_millis(PHIDGET_TIMEOUT_DEFAULT as u64)],
    with the [u32] constant of [phidget22.h] as a parameter. *)
Definition TIMEOUT_DEFAULT (PHIDGET_TIMEOUT_DEFAULT : N) : Duration :=
  PhidgetExt.from_millis PHIDGET_TIMEOUT_DEFAULT.

(** [Phidget::open_wait_default]. *)
Definition open_wait_default (PHIDGET_TIMEOUT_DEFAULT : N) (env : Env)
    (h : Handle) : M (Errors.Result unit) :=
  open_wait env h (TIMEOUT_DEFAULT PHIDGET_TIMEOUT_DEFAULT).

End Trampolines.

(** ** Concrete native environments *)

Module Scenarios.
Import Errors Native.

(** Every native call succeeds, channels report themselves open, and
    string getters leave their out-pointer null. *)
Definition env_ok : Env :=
  {| ret_code := fun _ => 0; open_out := fun _ => 1; str_out := fun _ => None |}.

(** As [env_ok], but registering a manager attach handler or a channel
    attach handler fails with [EINVAL] (13). *)
Definition env_attach_fails : Env :=
  {| ret_code := fun c =>
       match c with
       | PhidgetManager_setOnAttachHandler _ _ => 13
       | Phidget_setOnAttachHandler _ _ => 13
       | _ => 0
       end;
     open_out := fun _ => 1;
     str_out := fun _ => None |}.

(** Whether a channel reports itself open through [Phidget::is_open]. *)
Definition reports_open (env : Env) (h : Handle) : bool :=
  N.eqb (ret_code env (Phidget_getIsOpen h)) 0 && negb (N.eqb (open_out env h) 0).

Definition close_events (env : Env) (h : Handle) : list Event :=
  [ENative (Phidget_getIsOpen h)]
  ++ (if reports_open env h then [ENative (Phidget_close h)] else []).

Definition free_events (o : option Ptr) : list Event :=
  match o with Some p => [EFree p] | None => [] end.

End Scenarios.

(** * Proofs *)

Module Proofs.
Import Errors Native Phidget Scenarios.

(** *** Return codes *)

Lemma from_lookup (n : N) :
  from n = match lookup n code_table with Some r => r | None => Unexpected end.
Proof.
  destruct n as [|p]; [reflexivity|].
  do 7 (destruct p as [p|p|]; try reflexivity).
Qed.

Lemma lookup_map_discriminant (k : N) (l : list ReturnCode) (r : ReturnCode) :
  lookup k (map (fun r => (discriminant r, r)) l) = Some r -> discriminant r = k.
Proof.
  induction l as [|x l IH]; simpl; [discriminate|].
  destruct (N.eqb_spec k (discriminant x)) as [E|_].
  - intros H; injection H as <-; now symmetry.
  - exact IH.
Qed.

(** C7: [ReturnCode::result] is total on native codes: [0] gives [Ok(())];
    any other code gives [Err] of the variant the fixed table lists for it,
    and [Err(Unexpected)] for a code absent from the table. *)
Theorem result_total (rc : N) :
  result rc =
  match rc with
  | 0 => ROk tt
  | _ => RErr (match lookup rc code_table with
               | Some kind => kind
               | None => Unexpected
               end)
  end.
Proof.
  unfold result. destruct rc; [reflexivity|]. now rewrite <- from_lookup.
Qed.

(** C8: for each code of the fixed table, the variant it converts to has
    that code as its [u32] discriminant; and code [0] gives [Ok(())]. *)
Theorem table_roundtrip (k : N) (r : ReturnCode) :
  lookup k code_table = Some r ->
  from k = r /\ discriminant (from k) = k /\ result 0 = ROk tt.
Proof.
  intros H.
  assert (Hf : from k = r) by (rewrite from_lookup, H; reflexivity).
  split; [exact Hf|split; [|reflexivity]].
  rewrite Hf. exact (lookup_map_discriminant k _ r H).
Qed.

Lemma table_roundtrip_witness :
  lookup 13 code_table = Some Invalid /\
  (from 13 = Invalid /\ discriminant (from 13) = 13 /\ result 0 = ROk tt).
Proof.
  split; [reflexivity|]. apply (table_roundtrip 13 Invalid). reflexivity.
Defined.

(** C10: [ReturnCode::result] never yields [Err(ReturnCode::Ok)]: it is
    [Ok(())] exactly on code [0], and otherwise an error whose variant has a
    non-zero discriminant. *)
Theorem result_never_err_ok (rc : N) :
  match result rc with
  | ROk _ => rc = 0
  | RErr e => rc <> 0 /\ e <> Ok /\ discriminant e <> 0
  end.
Proof.
  rewrite result_total. destruct rc as [|p]; [reflexivity|].
  split; [discriminate|].
  destruct (lookup (N.pos p) code_table) as [r|] eqn:E.
  - apply lookup_map_discriminant in E.
    destruct r; simpl in *; try discriminate; split; discriminate.
  - split; discriminate.
Qed.

(** *** Monad bookkeeping *)

Lemma count_free_app (p : Ptr) (l1 l2 : list Event) :
  count_free p (l1 ++ l2) = (count_free p l1 + count_free p l2)%nat.
Proof.
  induction l1 as [|e l1 IH]; [reflexivity|].
  destruct e; simpl; rewrite ?IH; lia.
Qed.

Lemma close_if_open_spec (env : Env) (h : Handle) (w : World) :
  close_if_open env h w =
  (tt, {| trace := trace w ++ close_events env h; next_ptr := next_ptr w |}).
Proof.
  destruct w as [t n].
  unfold close_if_open, is_open, close, native, emit, bind, ret, try,
    close_events, reports_open; simpl.
  destruct (ret_code env (Phidget_getIsOpen h)) as [|q]; simpl.
  - destruct (open_out env h); simpl; now rewrite <- ?app_assoc.
  - reflexivity.
Qed.

Lemma count_free_close_events (env : Env) (h : Handle) (p : Ptr) :
  count_free p (close_events env h) = 0%nat.
Proof.
  unfold close_events. destruct (reports_open env h); reflexivity.
Qed.

(** *** [open_wait] *)

(** C6: [open_wait] with a duration of more than [u32::MAX] milliseconds
    returns [Err(InvalidArg)] and leaves the world untouched (no native
    call); otherwise it makes exactly one native call,
    [Phidget_openWaitForAttachment] with the exact millisecond count, and
    returns its translated code. *)
Theorem open_wait_range (env : Env) (h : Handle) (d : Duration) (w : World) :
  open_wait env h d w =
  if as_millis d <=? u32_MAX then
    let c := Phidget_openWaitForAttachment h (as_millis d) in
    (result (ret_code env c),
     {| trace := trace w ++ [ENative c]; next_ptr := next_ptr w |})
  else (RErr InvalidArg, w).
Proof.
  unfold open_wait, u32_try_from.
  destruct (as_millis d <=? u32_MAX); reflexivity.
Qed.

(** *** Strings returned through an out-pointer *)

(** C9 (counterexample): [device_sku] succeeds with an empty string when
    the native call returns [0] but leaves the pointer null; it does not
    report [NoMemory]. *)
Lemma device_sku_null_is_empty :
  fst (device_sku env_ok 5 initial_world) = ROk EmptyString /\
  fst (device_sku env_ok 5 initial_world) <> RErr NoMemory.
Proof. split; [reflexivity|discriminate]. Qed.

(** C9: a [get_ffi_string] getter (e.g. [device_name]) reports [NoMemory]
    for a successful call that leaves the pointer null, and otherwise
    returns the copied string; [device_sku] returns an empty string and
    [device_label] returns [None] in that case. A non-zero code is returned
    as its error by all three. *)
Theorem string_getters_null (env : Env) (h : Handle) (w : World) :
  fst (device_name env h w) =
    match result (ret_code env (Phidget_getDeviceName h)) with
    | RErr e => RErr e
    | ROk _ =>
        match str_out env (Phidget_getDeviceName h) with
        | None => RErr NoMemory
        | Some s => ROk s
        end
    end /\
  fst (device_sku env h w) =
    match result (ret_code env (Phidget_getDeviceSKU h)) with
    | RErr e => RErr e
    | ROk _ =>
        match str_out env (Phidget_getDeviceSKU h) with
        | None => ROk EmptyString
        | Some s => ROk s
        end
    end /\
  fst (device_label env h w) =
    match result (ret_code env (Phidget_getDeviceLabel h)) with
    | RErr e => RErr e
    | ROk _ => ROk (str_out env (Phidget_getDeviceLabel h))
    end.
Proof.
  unfold device_name, get_ffi_string, device_sku, device_label,
    native_str, emit, bind, ret, try; simpl.
  split; [|split].
  - destruct (result _); [destruct (str_out _ _)|]; reflexivity.
  - destruct (result _); [destruct (str_out _ _)|]; reflexivity.
  - destruct (result _); reflexivity.
Qed.

(** *** Non-owning views and promotion *)

Lemma make_views_spec (n : nat) (h : Handle) (w : World) :
  make_views n h w = (repeat {| ref_handle := h |} n, w).
Proof.
  revert w; induction n as [|n IH]; intros w; [reflexivity|].
  simpl. unfold bind, PhidgetRef_new, ret. now rewrite IH.
Qed.

Lemma drop_views_spec (rs : list PhidgetRef) (w : World) :
  drop_views rs w = (tt, w).
Proof.
  revert w; induction rs as [|r rs IH]; intros w; [reflexivity|].
  simpl. unfold bind, drop_PhidgetRef, ret. apply IH.
Qed.

(** C4: building and dropping [n] [PhidgetRef] views over one handle leaves
    the world unchanged (no native call at all); the [on_attach] trampoline,
    which builds and drops a view around the closure call, only calls the
    closure; and promotion through [TryFrom] is the path that calls the
    native library, with exactly one [Phidget_retain]. *)
Theorem views_never_release (n : nat) (h : Handle) (ctx : Ptr) (env : Env)
    (w : World) :
  views_lifecycle n h w = (tt, w) /\
  trace (snd (on_attach h ctx w)) =
    trace w ++ (if N.eqb ctx 0 then [] else [EInvoke ctx]) /\
  trace (snd (GenericPhidget_try_from env {| ref_handle := h |} w)) =
    trace w ++ [ENative (Phidget_retain h)].
Proof.
  split; [|split].
  - unfold views_lifecycle, bind. rewrite make_views_spec. apply drop_views_spec.
  - unfold on_attach. destruct (N.eqb ctx 0); simpl.
    + now rewrite app_nil_r.
    + reflexivity.
  - unfold GenericPhidget_try_from, native, emit, bind, ret, try; simpl.
    destruct (result _); reflexivity.
Qed.

(** C5: promotion calls [Phidget_retain] exactly once. On a zero code it
    yields an owning [GenericPhidget] over the same handle whose drop ends
    with [Phidget_release] (after the close-if-open prologue) and never
    calls a delete entry point; on a non-zero code it returns that code's
    error and makes no other call, and dropping the view changes nothing. *)
Theorem promote_retain_release (env : Env) (h : Handle) (w : World) :
  let (r, w1) := GenericPhidget_try_from env {| ref_handle := h |} w in
  trace w1 = trace w ++ [ENative (Phidget_retain h)] /\
  next_ptr w1 = next_ptr w /\
  match r with
  | ROk g =>
      ret_code env (Phidget_retain h) = 0 /\ gen_handle g = h /\
      forall w2,
        trace (snd (drop_GenericPhidget env g w2)) =
        trace w2 ++ close_events env h ++ [ENative (Phidget_release h)]
  | RErr e =>
      ret_code env (Phidget_retain h) <> 0 /\
      e = from (ret_code env (Phidget_retain h)) /\
      drop_PhidgetRef {| ref_handle := h |} w1 = (tt, w1)
  end.
Proof.
  unfold GenericPhidget_try_from, native, emit, bind, ret, try; simpl.
  destruct (ret_code env (Phidget_retain h)) as [|q] eqn:E; simpl.
  - split; [reflexivity|split; [reflexivity|]].
    split; [reflexivity|split; [reflexivity|]].
    intros w2. unfold drop_GenericPhidget, bind.
    rewrite close_if_open_spec. simpl. now rewrite <- app_assoc.
  - repeat split; discriminate.
Qed.

(** *** Drop order of the handle-owning wrappers *)

Lemma drop_cb_spec (o : option Ptr) (w : World) :
  drop_cb o w =
  (tt, {| trace := trace w ++ free_events o; next_ptr := next_ptr w |}).
Proof.
  destruct o; [reflexivity|]. destruct w; simpl. now rewrite app_nil_r.
Qed.

Lemma humidity_drop_spec (env : Env) (s : HumiditySensor.HumiditySensor)
    (w : World) :
  HumiditySensor.drop env s w =
  (tt, {| trace := trace w ++ close_events env (HumiditySensor.chan s)
                   ++ [ENative (PhidgetHumiditySensor_delete (HumiditySensor.chan s))]
                   ++ free_events (HumiditySensor.cb s)
                   ++ free_events (HumiditySensor.attach_cb s)
                   ++ free_events (HumiditySensor.detach_cb s);
          next_ptr := next_ptr w |}).
Proof.
  unfold HumiditySensor.drop, bind.
  rewrite close_if_open_spec. unfold native, emit, bind, ret. simpl.
  rewrite !drop_cb_spec. simpl. now rewrite <- !app_assoc.
Qed.

(** C2: dropping a device wrapper ([HumiditySensor]) does, in order: the
    [is_open] query and, when it reports open, [close]; the native delete
    of the handle; then the release of each registered callback slot
    (change, attach, detach). Dropping the manager diverges from this: it
    makes the one call [PhidgetManager_close] (no [is_open] query), never
    calls [PhidgetManager_delete], and frees no box, so a callback held in
    its [attach_cb] or [detach_cb] slot is never released. *)
Theorem drop_order (env : Env) (s : HumiditySensor.HumiditySensor)
    (m : Manager.PhidgetManager) (w : World) :
  trace (snd (HumiditySensor.drop env s w)) =
    trace w ++ close_events env (HumiditySensor.chan s)
    ++ [ENative (PhidgetHumiditySensor_delete (HumiditySensor.chan s))]
    ++ free_events (HumiditySensor.cb s)
    ++ free_events (HumiditySensor.attach_cb s)
    ++ free_events (HumiditySensor.detach_cb s) /\
  trace (snd (Manager.drop env m w)) =
    trace w ++ [ENative (PhidgetManager_close (Manager.mgr m))] /\
  (forall p, count_free p (trace (snd (Manager.drop env m w))) =
             count_free p (trace w)).
Proof.
  assert (Hm : trace (snd (Manager.drop env m w)) =
               trace w ++ [ENative (PhidgetManager_close (Manager.mgr m))])
    by reflexivity.
  split; [|split; [exact Hm|]].
  - now rewrite humidity_drop_spec.
  - intros p. rewrite Hm, count_free_app. simpl. lia.
Qed.

(** *** Registration failure *)

(** C3 (failing input): when [PhidgetManager_setOnAttachHandler] or
    [Phidget_setOnAttachHandler] returns [13], the closure boxed at
    pointer [1] is neither stored in a slot nor freed: the error is
    returned, and dropping the wrapper afterwards does not free it
    either. *)
Theorem attach_registration_failure_leaks :
  (let (r, w1) := Manager.set_on_attach_handler env_attach_fails
                    (Manager.from 3) initial_world in
   fst r = RErr Invalid /\ Manager.attach_cb (snd r) = None /\
   In (EAlloc 1) (trace w1) /\
   count_free 1 (trace (snd (Manager.drop env_attach_fails (snd r) w1))) = 0%nat) /\
  (let (r, w1) := HumiditySensor.set_on_attach_handler env_attach_fails
                    (HumiditySensor.from 4) initial_world in
   fst r = RErr Invalid /\ HumiditySensor.attach_cb (snd r) = None /\
   In (EAlloc 1) (trace w1) /\
   count_free 1 (trace (snd (HumiditySensor.drop env_attach_fails (snd r) w1))) = 0%nat).
Proof.
  vm_compute. repeat split; auto.
Qed.

(** *** Callback slots *)

Ltac slots_lia :=
  unfold HumiditySensor.slots_inv, HumiditySensor.below,
    HumiditySensor.apart in *; simpl in *;
  repeat match goal with
         | o : option Ptr |- _ => destruct o
         end;
  intuition lia.

Lemma step_spec (env : Env) (o : HumiditySensor.Op)
    (s : HumiditySensor.HumiditySensor) (w : World) :
  HumiditySensor.slots_inv s (next_ptr w) ->
  let (r, w') := HumiditySensor.step env o s w in
  HumiditySensor.slots_inv (snd r) (next_ptr w') /\
  next_ptr w' = N.succ (next_ptr w) /\
  (forall p, count_free p (trace w') = count_free p (trace w)).
Proof.
  intros Hinv. destruct s as [c o1 o2 o3].
  destruct o; simpl;
    unfold HumiditySensor.set_on_humidity_change_handler,
      HumiditySensor.set_on_attach_handler,
      HumiditySensor.set_on_detach_handler,
      Phidget.set_on_attach_handler, Phidget.set_on_detach_handler,
      native, emit, alloc_box, bind, ret, try; simpl;
    try destruct (result _); simpl;
    (split; [slots_lia|split; [reflexivity|]]);
    intros p; rewrite ?count_free_app; simpl; lia.
Qed.

Lemma run_ops_spec (env : Env) (ops : list HumiditySensor.Op) :
  forall (s : HumiditySensor.HumiditySensor) (w : World),
  HumiditySensor.slots_inv s (next_ptr w) ->
  let (s', w') := HumiditySensor.run_ops env ops s w in
  HumiditySensor.slots_inv s' (next_ptr w') /\
  (forall p, count_free p (trace w') = count_free p (trace w)).
Proof.
  induction ops as [|o ops IH]; intros s w Hinv.
  - simpl. unfold ret. split; [exact Hinv|reflexivity].
  - simpl. unfold bind.
    pose proof (step_spec env o s w Hinv) as Hs.
    destruct (HumiditySensor.step env o s w) as [r w1].
    destruct Hs as [Hinv1 [_ Hc1]].
    specialize (IH (snd r) w1 Hinv1).
    destruct (HumiditySensor.run_ops env ops (snd r) w1) as [s' w'].
    destruct IH as [Hinv' Hc']. split; [exact Hinv'|].
    intros p. now rewrite Hc', Hc1.
Qed.

Lemma free_events_slots (s : HumiditySensor.HumiditySensor) (n p : Ptr) :
  HumiditySensor.slots_inv s n ->
  count_free p (free_events (HumiditySensor.cb s)
                ++ free_events (HumiditySensor.attach_cb s)
                ++ free_events (HumiditySensor.detach_cb s)) =
  if HumiditySensor.in_slots s p then 1%nat else 0%nat.
Proof.
  intros Hinv. destruct s as [c o1 o2 o3].
  unfold HumiditySensor.in_slots; simpl.
  rewrite !count_free_app.
  destruct o1 as [a|], o2 as [b|], o3 as [d|]; simpl;
    repeat match goal with
           | |- context [N.eqb ?x ?y] => destruct (N.eqb_spec x y)
           end;
    simpl; slots_lia.
Qed.

(** C1 (counterexample): registering two humidity-change handlers in a row
    overwrites the slot; the first box (pointer [1]) is freed neither by the
    second registration nor by the drop, while the second (pointer [2]) is
    freed once by the drop. *)
Lemma replaced_handler_not_freed :
  let (s, w1) := HumiditySensor.run_ops env_ok
                   [HumiditySensor.SetHumidityChange; HumiditySensor.SetHumidityChange]
                   (HumiditySensor.from 7) initial_world in
  HumiditySensor.cb s = Some 2 /\
  count_free 1 (trace w1) = 0%nat /\
  count_free 1 (trace (snd (HumiditySensor.drop env_ok s w1))) = 0%nat /\
  count_free 2 (trace (snd (HumiditySensor.drop env_ok s w1))) = 1%nat.
Proof. vm_compute. repeat split. Qed.

(** C1: for any sequence of [set_on_*_handler] calls on a fresh
    [HumiditySensor] followed by its drop, no box is freed before the drop,
    and a box is freed exactly once if it is held in a slot when the sensor
    is dropped and never otherwise: a box replaced by a later registration
    on the same slot is not freed. *)
Theorem callback_freed_once_at_drop (env : Env) (h : Handle)
    (ops : list HumiditySensor.Op) (p : Ptr) :
  let (s, w1) := HumiditySensor.run_ops env ops (HumiditySensor.from h)
                   initial_world in
  count_free p (trace w1) = 0%nat /\
  count_free p (trace (snd (HumiditySensor.drop env s w1))) =
    if HumiditySensor.in_slots s p then 1%nat else 0%nat.
Proof.
  assert (H0 : HumiditySensor.slots_inv (HumiditySensor.from h)
                 (next_ptr initial_world)) by slots_lia.
  pose proof (run_ops_spec env ops _ _ H0) as Hr.
  destruct (HumiditySensor.run_ops env ops (HumiditySensor.from h)
              initial_world) as [s w1].
  destruct Hr as [Hinv Hc].
  assert (Hz : count_free p (trace w1) = 0%nat) by now rewrite Hc.
  split; [exact Hz|].
  rewrite humidity_drop_spec. cbn [snd trace].
  rewrite <- (free_events_slots s _ p Hinv), !count_free_app, Hz,
    count_free_close_events. simpl. lia.
Qed.

End Proofs.

(** * Proofs about the rest of the trait and the enums *)

Module ExtProofs.
Import Errors Enums.

(** *** [TryFrom<u32>] of the class and id enums *)

Lemma distinct_NoDup (l : list N) : distinct l = true -> NoDup l.
Proof.
  induction l as [|x l IH]; simpl; intros H; [constructor|].
  apply andb_true_iff in H as [Hx Hl].
  constructor; [|exact (IH Hl)].
  intros Hin. apply negb_true_iff in Hx.
  assert (existsb (N.eqb x) l = true) as Hc
    by (apply existsb_exists; exists x; split; [exact Hin|apply N.eqb_refl]).
  congruence.
Qed.

Lemma enum_try_from_discr {T} (l : list T) (discr : T -> N) (r : T) :
  NoDup (map discr l) -> In r l -> enum_try_from l discr (discr r) = ROk r.
Proof.
  unfold enum_try_from. induction l as [|x l IH]; simpl; [tauto|].
  intros Hd Hin. inversion Hd as [|y m Hx Hd' E]; subst.
  destruct (N.eqb_spec (discr x) (discr r)) as [E|E].
  - destruct Hin as [<-|Hin]; [reflexivity|].
    exfalso. apply Hx. rewrite E. now apply in_map.
  - destruct Hin as [<-|Hin]; [congruence|]. now apply IH.
Qed.

Lemma enum_try_from_other {T} (l : list T) (discr : T -> N) (v : N) :
  (forall r, discr r <> v) -> enum_try_from l discr v = RErr InvalidArg.
Proof.
  intros Hv. unfold enum_try_from.
  destruct (find (fun r => N.eqb (discr r) v) l) as [r|] eqn:E; [|reflexivity].
  apply find_some in E as [_ E]. apply N.eqb_eq in E. now destruct (Hv r).
Qed.

Ltac in_all := simpl; repeat first [left; reflexivity | right].

Lemma ChannelClass_all_complete (r : ChannelClass.ChannelClass) :
  In r ChannelClass.all.
Proof. destruct r; in_all. Qed.

Lemma DeviceClass_all_complete (r : DeviceClass.DeviceClass) :
  In r DeviceClass.all.
Proof. destruct r; in_all. Qed.

Lemma DeviceId_all_complete (r : DeviceId.DeviceId) : In r DeviceId.all.
Proof. destruct r; in_all. Qed.

(** [ChannelClass::try_from] inverts [cls as u32]: for any assignment of
    pairwise distinct constants, each variant's constant converts back to
    that variant, and any other [u32] is rejected with [InvalidArg]. *)
Theorem ChannelClass_try_from_roundtrip (discr : ChannelClass.ChannelClass -> N)
    (Hd : NoDup (map discr ChannelClass.all)) :
  (forall r, ChannelClass.try_from discr (discr r) = ROk r) /\
  (forall v, (forall r, discr r <> v) ->
             ChannelClass.try_from discr v = RErr InvalidArg).
Proof.
  split.
  - intros r. apply enum_try_from_discr; [exact Hd|apply ChannelClass_all_complete].
  - intros v Hv. now apply enum_try_from_other.
Qed.

Lemma ChannelClass_try_from_roundtrip_witness :
  NoDup (map ChannelClass.sample_discr ChannelClass.all) /\
  ((forall r, ChannelClass.try_from ChannelClass.sample_discr
                (ChannelClass.sample_discr r) = ROk r) /\
   (forall v, (forall r, ChannelClass.sample_discr r <> v) ->
              ChannelClass.try_from ChannelClass.sample_discr v = RErr InvalidArg)).
Proof.
  assert (Hd : NoDup (map ChannelClass.sample_discr ChannelClass.all))
    by (apply distinct_NoDup; vm_compute; reflexivity).
  split; [exact Hd|]. exact (ChannelClass_try_from_roundtrip _ Hd).
Defined.

(** [DeviceClass::try_from] inverts [cls as u32] and rejects every other
    [u32] with [InvalidArg]. *)
Theorem DeviceClass_try_from_roundtrip (discr : DeviceClass.DeviceClass -> N)
    (Hd : NoDup (map discr DeviceClass.all)) :
  (forall r, DeviceClass.try_from discr (discr r) = ROk r) /\
  (forall v, (forall r, discr r <> v) ->
             DeviceClass.try_from discr v = RErr InvalidArg).
Proof.
  split.
  - intros r. apply enum_try_from_discr; [exact Hd|apply DeviceClass_all_complete].
  - intros v Hv. now apply enum_try_from_other.
Qed.

Lemma DeviceClass_try_from_roundtrip_witness :
  NoDup (map DeviceClass.sample_discr DeviceClass.all) /\
  ((forall r, DeviceClass.try_from DeviceClass.sample_discr
                (DeviceClass.sample_discr r) = ROk r) /\
   (forall v, (forall r, DeviceClass.sample_discr r <> v) ->
              DeviceClass.try_from DeviceClass.sample_discr v = RErr InvalidArg)).
Proof.
  assert (Hd : NoDup (map DeviceClass.sample_discr DeviceClass.all))
    by (apply distinct_NoDup; vm_compute; reflexivity).
  split; [exact Hd|]. exact (DeviceClass_try_from_roundtrip _ Hd).
Defined.

(** [DeviceId::try_from] inverts [id as u32] and rejects every other [u32]
    with [InvalidArg]. *)
Theorem DeviceId_try_from_roundtrip (discr : DeviceId.DeviceId -> N)
    (Hd : NoDup (map discr DeviceId.all)) :
  (forall r, DeviceId.try_from discr (discr r) = ROk r) /\
  (forall v, (forall r, discr r <> v) ->
             DeviceId.try_from discr v = RErr InvalidArg).
Proof.
  split.
  - intros r. apply enum_try_from_discr; [exact Hd|apply DeviceId_all_complete].
  - intros v Hv. now apply enum_try_from_other.
Qed.

Lemma DeviceId_try_from_roundtrip_witness :
  NoDup (map DeviceId.sample_discr DeviceId.all) /\
  ((forall r, DeviceId.try_from DeviceId.sample_discr
                (DeviceId.sample_discr r) = ROk r) /\
   (forall v, (forall r, DeviceId.sample_discr r <> v) ->
              DeviceId.try_from DeviceId.sample_discr v = RErr InvalidArg)).
Proof.
  assert (Hd : NoDup (map DeviceId.sample_discr DeviceId.all))
    by (apply distinct_NoDup; vm_compute; reflexivity).
  split; [exact Hd|]. exact (DeviceId_try_from_roundtrip _ Hd).
Defined.

(** *** Filters and labels *)

Section Filters.
Import PhidgetExt.

Lemma xcall_then (xenv : XEnv) (c : XCall) (k : unit -> XM (Result unit))
    (t : list XCall) :
  xbind (xcall xenv c) (fun r => xtry r k) t =
  if N.eqb (xret xenv c) 0 then k tt (t ++ [c])
  else (RErr (from (xret xenv c)), t ++ [c]).
Proof.
  unfold xbind, xcall, xnative, xreturn, xtry, result.
  destruct (xret xenv c); reflexivity.
Qed.

Lemma xreturn_then {A B} (a : A) (k : A -> XM B) (t : list XCall) :
  xbind (xreturn a) k t = k a t.
Proof. reflexivity. Qed.

Lemma set_filter_spec (xenv : XEnv) (h : Native.Handle) (f : PhidgetFilter)
    (t : list XCall) :
  let nul := match f_device_label f with Some l => has_nul l | None => false end in
  let cs := filter_calls h (if nul then without_label f else f) in
  set_filter xenv h f t =
  (match first_failure xenv cs with
   | None => if nul then RErr Invalid else ROk tt
   | Some c => RErr (from (xret xenv c))
   end,
   t ++ calls_until_failure xenv cs).
Proof.
  cbv zeta.
  destruct f as [[c|] [sn|] [b|] [p|] [l|]];
    unfold set_filter, if_some, set_channel, set_serial_number,
      set_is_hub_port_device, set_hub_port, set_device_label;
    cbn [f_channel f_serial_number f_is_hub_port_device f_hub_port
         f_device_label];
    try destruct (has_nul l);
    unfold without_label, filter_calls;
    cbn [f_channel f_serial_number f_is_hub_port_device f_hub_port
         f_device_label app];
    repeat (rewrite ?xcall_then, ?xreturn_then; cbv beta; cbn [xtry]);
    cbn [first_failure calls_until_failure];
    repeat match goal with
           | |- context [N.eqb (xret xenv ?c) 0] =>
               destruct (N.eqb (xret xenv c) 0)
           end;
    cbn; rewrite ?app_nil_r, <- ?app_assoc; reflexivity.
Qed.

(** [set_filter] calls the setters for the fields the filter has, in the
    order channel, serial number, hub-port-device flag, hub port, label,
    and stops at the first one that returns a non-zero code, returning that
    code's error; a label with a NUL byte is never passed to the native
    library and, if every earlier setter succeeded, gives [Invalid]. An
    empty filter makes no native call and returns [Ok]. *)
Theorem set_filter_stops_at_first_failure (xenv : XEnv) (h : Native.Handle)
    (f : PhidgetFilter) (t : list XCall) :
  let nul := match f_device_label f with Some l => has_nul l | None => false end in
  let cs := filter_calls h (if nul then without_label f else f) in
  set_filter xenv h f t =
  (match first_failure xenv cs with
   | None => if nul then RErr Invalid else ROk tt
   | Some c => RErr (from (xret xenv c))
   end,
   t ++ calls_until_failure xenv cs).
Proof. apply set_filter_spec. Qed.

(** Applying the filter built from a [PhidgetInfo] (when every native
    setter succeeds and the label holds no NUL byte) sets the channel, the
    serial number and the hub-port-device flag, always and in that order,
    then the hub port and the label exactly when the info has them, and
    returns [Ok]. *)
Theorem set_filter_from_info (xenv : XEnv) (h : Native.Handle)
    (i : PhidgetInfo) (t : list XCall)
    (Hok : forall c, xret xenv c = 0)
    (Hl : match device_label i with Some l => has_nul l = false | None => True end) :
  set_filter xenv h (filter_from_info i) t =
  (ROk tt,
   t ++ [Phidget_setChannel h (channel i);
         Phidget_setDeviceSerialNumber h (serial_number i);
         Phidget_setIsHubPortDevice h (c_int_of_bool (is_hub_port_device i))]
     ++ match hub_port i with Some p => [Phidget_setHubPort h p] | None => [] end
     ++ match device_label i with
        | Some l => [Phidget_setDeviceLabel h l] | None => [] end).
Proof.
  pose proof (set_filter_spec xenv h (filter_from_info i) t) as E.
  cbv zeta in E. rewrite E. clear E.
  assert (Hn : match device_label i with Some l => has_nul l | None => false end
               = false) by (destruct (device_label i); auto).
  cbn [filter_from_info f_device_label]. rewrite Hn.
  assert (H1 : forall cs, first_failure xenv cs = None).
  { induction cs as [|c cs IH]; [reflexivity|]. simpl. rewrite Hok. exact IH. }
  assert (H2 : forall cs, calls_until_failure xenv cs = cs).
  { induction cs as [|c cs IH]; [reflexivity|]. simpl. rewrite Hok, IH.
    reflexivity. }
  rewrite H1, H2. reflexivity.
Qed.

Lemma set_filter_from_info_witness :
  let xenv := {| xret := fun _ => 0; xint := fun _ => 0%Z; xu32 := fun _ => 0;
                 xstr := fun _ => None |} in
  let i := {| channel_name := "ch"%string; channel_class := ChannelClass.HumiditySensor;
              channel := 0%Z; device_name := "dev"%string;
              device_class := DeviceClass.Vint; device_id := DeviceId.Hum1001;
              device_label := Some "lab"%string; serial_number := 12345%Z;
              is_hub_port_device := false; hub_port := Some 2%Z;
              device_sku := "HUM1001_0"%string |} in
  set_filter xenv 9 (filter_from_info i) [] =
  (ROk tt,
   [] ++ [Phidget_setChannel 9 (channel i);
          Phidget_setDeviceSerialNumber 9 (serial_number i);
          Phidget_setIsHubPortDevice 9 (c_int_of_bool (is_hub_port_device i))]
      ++ match hub_port i with Some p => [Phidget_setHubPort 9 p] | None => [] end
      ++ match device_label i with
         | Some l => [Phidget_setDeviceLabel 9 l] | None => [] end).
Proof.
  intros xenv i. apply set_filter_from_info; [reflexivity|reflexivity].
Defined.

(** *** Data interval and the default open timeout *)

Lemma as_millis_from_millis (ms : N) : Phidget.as_millis (from_millis ms) = ms.
Proof.
  unfold Phidget.as_millis, from_millis; simpl.
  rewrite N.div_mul by discriminate.
  pose proof (N.div_mod ms 1000 ltac:(discriminate)). lia.
Qed.

(** The duration [data_interval] reads back from a [u32] millisecond count
    is accepted by [set_data_interval], which passes the same count to the
    native setter: reading the interval and writing it back is the
    identity on the native value. *)
Theorem data_interval_roundtrip (xenv : XEnv) (h : Native.Handle)
    (t : list XCall)
    (H0 : xret xenv (Phidget_getDataInterval h) = 0)
    (Hb : xu32 xenv (Phidget_getDataInterval h) <= Phidget.u32_MAX) :
  let (r, t1) := data_interval xenv h t in
  exists d, r = ROk d /\
    Phidget.as_millis d = xu32 xenv (Phidget_getDataInterval h) /\
    set_data_interval xenv h d t1 =
    (result (xret xenv (Phidget_setDataInterval h
                          (xu32 xenv (Phidget_getDataInterval h)))),
     t1 ++ [Phidget_setDataInterval h (xu32 xenv (Phidget_getDataInterval h))]).
Proof.
  unfold data_interval, xget, xnative, xbind, xtry, xreturn. rewrite H0. simpl.
  eexists; split; [reflexivity|].
  rewrite as_millis_from_millis. split; [reflexivity|].
  unfold set_data_interval, Phidget.u32_try_from.
  rewrite as_millis_from_millis.
  apply N.leb_le in Hb. rewrite Hb. reflexivity.
Qed.

Lemma data_interval_roundtrip_witness :
  let xenv := {| xret := fun _ => 0; xint := fun _ => 0%Z;
                 xu32 := fun _ => 250; xstr := fun _ => None |} in
  (xret xenv (Phidget_getDataInterval 4) = 0 /\
   xu32 xenv (Phidget_getDataInterval 4) <= Phidget.u32_MAX) /\
  let (r, t1) := data_interval xenv 4 [] in
  exists d, r = ROk d /\
    Phidget.as_millis d = xu32 xenv (Phidget_getDataInterval 4) /\
    set_data_interval xenv 4 d t1 =
    (result (xret xenv (Phidget_setDataInterval 4
                          (xu32 xenv (Phidget_getDataInterval 4)))),
     t1 ++ [Phidget_setDataInterval 4 (xu32 xenv (Phidget_getDataInterval 4))]).
Proof.
  intros xenv. split; [split; [reflexivity|vm_compute; discriminate]|].
  apply data_interval_roundtrip; [reflexivity|vm_compute; discriminate].
Defined.

Lemma has_nul_spec (l : string) :
  has_nul l = true <-> exists s1 s2, l = (s1 ++ String Ascii.zero s2)%string.
Proof.
  induction l as [|c l IH]; simpl.
  - split; [discriminate|]. intros ([|? ?] & s2 & E); discriminate.
  - rewrite Bool.orb_true_iff, IH. split.
    + intros [Hc | (s1 & s2 & ->)].
      * apply Ascii.eqb_eq in Hc as ->. exists EmptyString, l. reflexivity.
      * exists (String c s1), s2. reflexivity.
    + intros ([|c' s1] & s2 & E); simpl in E; injection E as -> E.
      * left. apply Ascii.eqb_refl.
      * right. exists s1, s2. exact E.
Qed.

(** A label holding a NUL byte anywhere is refused by [set_device_label]
    and [write_device_label] with [Invalid] before any native call; any
    other label is passed to exactly one native call whose code is
    returned. *)
Theorem device_label_nul_rejected (xenv : XEnv) (h : Native.Handle)
    (l : string) (t : list XCall) :
  ((exists s1 s2, l = (s1 ++ String Ascii.zero s2)%string) ->
   set_device_label xenv h l t = (RErr Invalid, t) /\
   write_device_label xenv h l t = (RErr Invalid, t)) /\
  ((forall s1 s2, l <> (s1 ++ String Ascii.zero s2)%string) ->
   set_device_label xenv h l t =
   (result (xret xenv (Phidget_setDeviceLabel h l)), t ++ [Phidget_setDeviceLabel h l]) /\
   write_device_label xenv h l t =
   (result (xret xenv (Phidget_writeDeviceLabel h l)),
    t ++ [Phidget_writeDeviceLabel h l])).
Proof.
  unfold set_device_label, write_device_label, xcall, xnative, xbind, xreturn.
  split.
  - intros Hn. apply has_nul_spec in Hn. rewrite Hn. split; reflexivity.
  - intros Hn. destruct (has_nul l) eqn:E.
    + apply has_nul_spec in E as (s1 & s2 & E). exfalso. exact (Hn s1 s2 E).
    + split; reflexivity.
Qed.

(** [set_data_interval] on a whole number of milliseconds passes that count
    to [Phidget_setDataInterval] when it fits a [u32], and otherwise
    returns [InvalidArg] without a native call. *)
Theorem set_data_interval_range (xenv : XEnv) (h : Native.Handle) (ms : N)
    (t : list XCall) :
  set_data_interval xenv h (from_millis ms) t =
  if N.leb ms Phidget.u32_MAX
  then (result (xret xenv (Phidget_setDataInterval h ms)),
        t ++ [Phidget_setDataInterval h ms])
  else (RErr InvalidArg, t).
Proof.
  unfold set_data_interval, Phidget.u32_try_from.
  rewrite as_millis_from_millis.
  destruct (N.leb ms Phidget.u32_MAX); reflexivity.
Qed.

End Filters.

(** [open_wait_default] passes exactly [PHIDGET_TIMEOUT_DEFAULT]
    milliseconds to [Phidget_openWaitForAttachment], for any [u32] value of
    that constant: it is never rejected as out of range. *)
Theorem open_wait_default_exact (td : N) (Htd : td <= Phidget.u32_MAX)
    (env : Native.Env) (h : Native.Handle) (w : Native.World) :
  Trampolines.open_wait_default td env h w =
  (result (Native.ret_code env (Native.Phidget_openWaitForAttachment h td)),
   {| Native.trace := Native.trace w
                      ++ [Native.ENative (Native.Phidget_openWaitForAttachment h td)];
      Native.next_ptr := Native.next_ptr w |}).
Proof.
  unfold Trampolines.open_wait_default, Trampolines.TIMEOUT_DEFAULT,
    Phidget.open_wait, Phidget.u32_try_from.
  rewrite as_millis_from_millis.
  apply N.leb_le in Htd. rewrite Htd. reflexivity.
Qed.

Lemma open_wait_default_exact_witness :
  1000 <= Phidget.u32_MAX /\
  Trampolines.open_wait_default 1000 Scenarios.env_ok 3 Native.initial_world =
  (result (Native.ret_code Scenarios.env_ok
             (Native.Phidget_openWaitForAttachment 3 1000)),
   {| Native.trace := Native.trace Native.initial_world
        ++ [Native.ENative (Native.Phidget_openWaitForAttachment 3 1000)];
      Native.next_ptr := Native.next_ptr Native.initial_world |}).
Proof.
  split; [vm_compute; discriminate|].
  apply open_wait_default_exact. vm_compute; discriminate.
Defined.

(** *** [info] *)

Section Info.
Import PhidgetExt.

Lemma xbind_eq {A B} (c : XM A) (k : A -> XM B) (t : list XCall) a t' :
  c t = (a, t') -> xbind c k t = k a t'.
Proof. unfold xbind. intros ->. reflexivity. Qed.

Ltac shape_tac :=
  intros;
  unfold get_channel_name, get_channel_class, get_channel, get_device_name,
    get_device_class, get_device_id, get_device_label, get_serial_number,
    get_is_hub_port_device, get_hub_port, get_device_sku, get_ffi_string,
    xget, xbind, xnative, xtry, xreturn;
  simpl;
  repeat match goal with
         | |- context [match ?x with _ => _ end] => destruct x
         end;
  reflexivity.

(** Each getter makes its one native call and answers independently of the
    calls made before it. *)
Lemma get_channel_name_shape xenv h t :
  get_channel_name xenv h t =
  (fst (get_channel_name xenv h []), t ++ [Phidget_getChannelName h]).
Proof. shape_tac. Qed.
Lemma get_channel_class_shape xenv chd h t :
  get_channel_class xenv chd h t =
  (fst (get_channel_class xenv chd h []), t ++ [Phidget_getChannelClass h]).
Proof. shape_tac. Qed.
Lemma get_channel_shape xenv h t :
  get_channel xenv h t = (fst (get_channel xenv h []), t ++ [Phidget_getChannel h]).
Proof. shape_tac. Qed.
Lemma get_device_name_shape xenv h t :
  get_device_name xenv h t =
  (fst (get_device_name xenv h []), t ++ [Phidget_getDeviceName h]).
Proof. shape_tac. Qed.
Lemma get_device_class_shape xenv dcd h t :
  get_device_class xenv dcd h t =
  (fst (get_device_class xenv dcd h []), t ++ [Phidget_getDeviceClass h]).
Proof. shape_tac. Qed.
Lemma get_device_id_shape xenv idd h t :
  get_device_id xenv idd h t =
  (fst (get_device_id xenv idd h []), t ++ [Phidget_getDeviceID h]).
Proof. shape_tac. Qed.
Lemma get_device_label_shape xenv h t :
  get_device_label xenv h t =
  (fst (get_device_label xenv h []), t ++ [Phidget_getDeviceLabel h]).
Proof. shape_tac. Qed.
Lemma get_serial_number_shape xenv h t :
  get_serial_number xenv h t =
  (fst (get_serial_number xenv h []), t ++ [Phidget_getDeviceSerialNumber h]).
Proof. shape_tac. Qed.
Lemma get_is_hub_port_device_shape xenv h t :
  get_is_hub_port_device xenv h t =
  (fst (get_is_hub_port_device xenv h []), t ++ [Phidget_getIsHubPortDevice h]).
Proof. shape_tac. Qed.
Lemma get_hub_port_shape xenv h t :
  get_hub_port xenv h t =
  (fst (get_hub_port xenv h []), t ++ [Phidget_getHubPort h]).
Proof. shape_tac. Qed.
Lemma get_device_sku_shape xenv h t :
  get_device_sku xenv h t =
  (fst (get_device_sku xenv h []), t ++ [Phidget_getDeviceSKU h]).
Proof. shape_tac. Qed.

Ltac info_step :=
  match goal with
  | |- context [xbind ?c ?k ?t] =>
      rewrite (xbind_eq c k t _ _ ltac:(first
        [ apply get_channel_name_shape | apply get_channel_class_shape
        | apply get_channel_shape | apply get_device_name_shape
        | apply get_device_class_shape | apply get_device_id_shape
        | apply get_device_label_shape | apply get_serial_number_shape
        | apply get_is_hub_port_device_shape | apply get_hub_port_shape
        | apply get_device_sku_shape ]));
      cbv beta zeta
  end.

(** [info] succeeds exactly when each of its queries but [hub_port]
    succeeds, and then holds their answers; the hub port is the answer of
    [hub_port] when that query succeeds and [None] when it fails, so a
    device without a hub port still gives an [info]. *)
Theorem info_ok_iff (xenv : XEnv) chd dcd idd (h : Native.Handle)
    (t : list XCall) (i : PhidgetInfo) :
  fst (info xenv chd dcd idd h t) = ROk i <->
  fst (get_channel_name xenv h []) = ROk (channel_name i) /\
  fst (get_channel_class xenv chd h []) = ROk (channel_class i) /\
  fst (get_channel xenv h []) = ROk (channel i) /\
  fst (get_device_name xenv h []) = ROk (device_name i) /\
  fst (get_device_class xenv dcd h []) = ROk (device_class i) /\
  fst (get_device_id xenv idd h []) = ROk (device_id i) /\
  fst (get_device_label xenv h []) = ROk (device_label i) /\
  fst (get_serial_number xenv h []) = ROk (serial_number i) /\
  fst (get_is_hub_port_device xenv h []) = ROk (is_hub_port_device i) /\
  hub_port i = ok (fst (get_hub_port xenv h [])) /\
  fst (get_device_sku xenv h []) = ROk (device_sku i).
Proof.
  unfold info.
  repeat (info_step;
          try match goal with
          | |- context [xtry (fst ?g) _ _] =>
              let E := fresh "E" in destruct (fst g) eqn:E; cbn [xtry]
          end).
  all: unfold xreturn; cbn [fst].
  all: try (split; [discriminate|]; intuition congruence).
  split.
  - intros Hi. injection Hi as <-. cbn. repeat split; assumption.
  - intros (H1 & H2 & H3 & H4 & H5 & H6 & H7 & H8 & H9 & H10 & H11).
    destruct i; cbn in *. f_equal. f_equal; congruence.
Qed.

End Info.

(** *** Trampolines and the humidity-change callback *)

Section Callbacks.
Import Native Phidget Scenarios.


(** Registering a humidity-change closure keeps the new box in the sensor
    whether or not the native registration succeeds, and returns the
    registration's code; dropping the sensor then frees that box exactly
    once, so a failed registration does not leak it. *)
Theorem humidity_change_box_freed (env : Env) (s : HumiditySensor.HumiditySensor)
    (w : World)
    (Ha : HumiditySensor.below (HumiditySensor.attach_cb s) (next_ptr w))
    (Hd : HumiditySensor.below (HumiditySensor.detach_cb s) (next_ptr w)) :
  let (r, w1) := HumiditySensor.set_on_humidity_change_handler env s w in
  fst r = result (ret_code env
            (PhidgetHumiditySensor_setOnHumidityChangeHandler
               (HumiditySensor.chan s) (next_ptr w))) /\
  HumiditySensor.cb (snd r) = Some (next_ptr w) /\
  count_free (next_ptr w) (trace (snd (HumiditySensor.drop env (snd r) w1))) =
  (count_free (next_ptr w) (trace w) + 1)%nat.
Proof.
  destruct w as [tr n]. cbn in Ha, Hd.
  unfold HumiditySensor.set_on_humidity_change_handler, alloc_box, native,
    emit, bind, ret. cbn.
  split; [reflexivity|]. split; [reflexivity|].
  rewrite Proofs.humidity_drop_spec. cbn [trace HumiditySensor.chan
    HumiditySensor.cb HumiditySensor.attach_cb HumiditySensor.detach_cb
    HumiditySensor.with_cb].
  cbn [snd trace].
  rewrite !Proofs.count_free_app, Proofs.count_free_close_events.
  unfold free_events.
  destruct (HumiditySensor.attach_cb s) as [a|], (HumiditySensor.detach_cb s) as [d|];
    cbn -[N.eqb] in *;
    rewrite ?N.eqb_refl;
    repeat match goal with
           | H : ?x < ?y |- context [N.eqb ?y ?x] =>
               replace (N.eqb y x) with false by (symmetry; apply N.eqb_neq; lia)
           end;
    lia.
Qed.

Lemma humidity_change_box_freed_witness :
  let s := HumiditySensor.from 7 in
  (HumiditySensor.below (HumiditySensor.attach_cb s) (next_ptr initial_world) /\
   HumiditySensor.below (HumiditySensor.detach_cb s) (next_ptr initial_world)) /\
  let (r, w1) := HumiditySensor.set_on_humidity_change_handler env_ok s initial_world in
  fst r = result (ret_code env_ok
            (PhidgetHumiditySensor_setOnHumidityChangeHandler
               (HumiditySensor.chan s) (next_ptr initial_world))) /\
  HumiditySensor.cb (snd r) = Some (next_ptr initial_world) /\
  count_free (next_ptr initial_world)
    (trace (snd (HumiditySensor.drop env_ok (snd r) w1))) =
  (count_free (next_ptr initial_world) (trace initial_world) + 1)%nat.
Proof.
  intros s. split; [split; exact I|].
  apply humidity_change_box_freed; exact I.
Defined.

(** The attach and detach registrations of [HumiditySensor]: on a zero
    code the new box is kept in its slot and dropping the sensor frees it
    exactly once; on a non-zero code the error is returned, the sensor is
    left as it was and the box is never freed by the drop. *)
Theorem humidity_registration_outcome (env : Env)
    (s : HumiditySensor.HumiditySensor) (w : World)
    (Hinv : HumiditySensor.slots_inv s (next_ptr w)) :
  (let (r, w1) := HumiditySensor.set_on_attach_handler env s w in
   let rc := ret_code env (Phidget_setOnAttachHandler (HumiditySensor.chan s)
                                                      (next_ptr w)) in
   let frees := count_free (next_ptr w)
                  (trace (snd (HumiditySensor.drop env (snd r) w1))) in
   (rc = 0 -> fst r = ROk tt /\
              HumiditySensor.attach_cb (snd r) = Some (next_ptr w) /\
              frees = (count_free (next_ptr w) (trace w) + 1)%nat) /\
   (rc <> 0 -> fst r = RErr (Errors.from rc) /\ snd r = s /\
               frees = count_free (next_ptr w) (trace w))) /\
  (let (r, w1) := HumiditySensor.set_on_detach_handler env s w in
   let rc := ret_code env (Phidget_setOnDetachHandler (HumiditySensor.chan s)
                                                      (next_ptr w)) in
   let frees := count_free (next_ptr w)
                  (trace (snd (HumiditySensor.drop env (snd r) w1))) in
   (rc = 0 -> fst r = ROk tt /\
              HumiditySensor.detach_cb (snd r) = Some (next_ptr w) /\
              frees = (count_free (next_ptr w) (trace w) + 1)%nat) /\
   (rc <> 0 -> fst r = RErr (Errors.from rc) /\ snd r = s /\
               frees = count_free (next_ptr w) (trace w))).
Proof.
  destruct w as [tr n].
  unfold HumiditySensor.slots_inv, HumiditySensor.below in Hinv. cbn in Hinv.
  destruct Hinv as (Hc & Ha & Hd & _).
  unfold HumiditySensor.set_on_attach_handler, HumiditySensor.set_on_detach_handler,
    Phidget.set_on_attach_handler, Phidget.set_on_detach_handler,
    alloc_box, native, emit, bind, ret, try.
  cbn [fst snd trace next_ptr].
  split;
    [destruct (ret_code env (Phidget_setOnAttachHandler (HumiditySensor.chan s) n))
       as [|q] eqn:Erc
    |destruct (ret_code env (Phidget_setOnDetachHandler (HumiditySensor.chan s) n))
       as [|q] eqn:Erc];
    cbn [result try ret fst snd];
    (split; intros Hrc; [try (exfalso; lia) | try (exfalso; congruence)]);
    (split; [reflexivity|]); (split; [reflexivity|]);
    rewrite Proofs.humidity_drop_spec; cbn [snd trace HumiditySensor.chan
      HumiditySensor.cb HumiditySensor.attach_cb HumiditySensor.detach_cb
      HumiditySensor.with_attach_cb HumiditySensor.with_detach_cb];
    rewrite !Proofs.count_free_app, Proofs.count_free_close_events;
    unfold free_events;
    destruct (HumiditySensor.cb s) as [c|], (HumiditySensor.attach_cb s) as [a|],
      (HumiditySensor.detach_cb s) as [d|];
    cbn -[N.eqb] in *; rewrite ?N.eqb_refl;
    repeat match goal with
           | H : ?x < ?y |- context [N.eqb ?y ?x] =>
               replace (N.eqb y x) with false by (symmetry; apply N.eqb_neq; lia)
           end;
    lia.
Qed.

Lemma humidity_registration_outcome_witness :
  HumiditySensor.slots_inv (HumiditySensor.from 4) (next_ptr initial_world) /\
  (let (r, w1) := HumiditySensor.set_on_attach_handler env_ok
                    (HumiditySensor.from 4) initial_world in
   let rc := ret_code env_ok (Phidget_setOnAttachHandler
               (HumiditySensor.chan (HumiditySensor.from 4)) (next_ptr initial_world)) in
   let frees := count_free (next_ptr initial_world)
                  (trace (snd (HumiditySensor.drop env_ok (snd r) w1))) in
   (rc = 0 -> fst r = ROk tt /\
              HumiditySensor.attach_cb (snd r) = Some (next_ptr initial_world) /\
              frees = (count_free (next_ptr initial_world) (trace initial_world) + 1)%nat) /\
   (rc <> 0 -> fst r = RErr (Errors.from rc) /\ snd r = HumiditySensor.from 4 /\
               frees = count_free (next_ptr initial_world) (trace initial_world))).
Proof.
  assert (Hinv : HumiditySensor.slots_inv (HumiditySensor.from 4)
                   (next_ptr initial_world))
    by (vm_compute; repeat split).
  split; [exact Hinv|].
  exact (proj1 (humidity_registration_outcome env_ok _ initial_world Hinv)).
Defined.

End Callbacks.

End ExtProofs.
